(** * ffmpegserver.js: the per-connection video encoder

    A shallow embedding of [src/server/video-encoder.js] (the
    [VideoEncoder] constructor and the closures it creates) together with
    the properties of the capture / assembly engine that the specification
    states about it.

    The encoder is a bundle of closure variables mutated by event
    handlers.  Every handler runs to completion on Node's single thread,
    so one handler invocation is one atomic step of a transition system
    whose inputs are the client's messages, the socket's events and the
    completions of the asynchronous work the handlers started (file
    writes, external processes, the artifact registry's promise).

    The source file holds the module twice; the embedding follows the
    first copy (lines 1 to 437), which is the one with [handleMeta] and
    the [spawn]-based stages.  The process-level exit hooks
    ([cleanUpEncodersOnExit]) are outside the model, and so are the
    contents of the files written and what the external tools leave on
    disk. *)

From Stdlib Require Import ZArith QArith Ascii String List Sorted Lia.
From stdpp Require Import base option list gmap sets strings pretty.

Open Scope Z_scope.

(** ** JavaScript strings and numbers *)

(** A JavaScript string is a sequence of UTF-16 code units; [substr] and a
    regular expression without the [u] flag both work on code units. *)
Definition jsstring : Type := list N.

(** The code units of a string literal of the source. *)
Definition u16 (s : string) : jsstring :=
  map N_of_ascii (list_ascii_of_string s).

(** [s.substr(start, len)] for non-negative arguments. *)
Definition substr (s : jsstring) (start len : nat) : jsstring :=
  take len (drop start s).

(** [path.join(dir, file)] for a directory and a file name that are
    already normalised. *)
Definition path_join (dir file : jsstring) : jsstring :=
  dir ++ u16 "/" ++ file.

(** The string a number turns into when it is concatenated to a string. *)
Definition num_to_string (n : Z) : jsstring := u16 (pretty n).

(** The value of [a / b] for integers [a] and [b]: IEEE division gives an
    infinity or NaN when the divisor is zero.  A finite quotient is kept
    as the exact rational; rounding to a double is monotone and keeps 0
    and 1, so membership in [0,1] is the same for both. *)
Inductive jsnum : Type :=
| Fin (q : Q)
| PosInf
| NegInf
| NaN.

Definition jsdiv (a b : Z) : jsnum :=
  if b =? 0 then
    if a =? 0 then NaN else if 0 <? a then PosInf else NegInf
  else Fin (inject_Z a / inject_Z b)%Q.

Definition in_unit_interval (v : jsnum) : Prop :=
  match v with
  | Fin q => (0 <= q)%Q /\ (q <= 1)%Q
  | _ => False
  end.

(** ** [safeName] *)

(** The character class [[0-9a-zA-Z-.]] of the regular expression in
    [safeName]; the hyphen after the range [A-Z] is a literal hyphen. *)
Definition in_class (c : N) : bool :=
  ((48 <=? c) && (c <=? 57) || (97 <=? c) && (c <=? 122)
   || (65 <=? c) && (c <=? 90) || (c =? 45) || (c =? 46))%N.

Definition underscore : N := 95%N.

(** [name.substr(0, 30).replace(/[^0-9a-zA-Z-.]/g, '_')] *)
Definition safeName (name : jsstring) : jsstring :=
  map (fun c => if in_class c then c else underscore) (substr name 0 30).

(** ** The encoder's data *)

(** The [options] object handed to the constructor. *)
Record Options : Type := {
  frameDir : jsstring;
  videoDir : jsstring;
  keepFrames : bool;
  allowArbitraryFfmpegArguments : bool
}.

(** The [data] object of a [start] message; a missing property is [None]. *)
Record StartData : Type := {
  d_name : option jsstring;
  d_framerate : option Z;
  d_extension : option jsstring;
  d_codec : option jsstring;
  d_ffmpegArguments : option (list jsstring)
}.

Definition no_start_data : StartData :=
  {| d_name := None; d_framerate := None; d_extension := None;
     d_codec := None; d_ffmpegArguments := None |}.

(** A callback of [fs.writeFile] that has not run yet, with the variables
    its closure captured: a frame write of [handleFrame], or a write of
    [handleTimestamps] / [handleAudioFile] whose callback only logs. *)
Inductive Pending : Type :=
| FrameWrite (frameNum : Z) (filename : jsstring)
| PlainWrite (filename : jsstring).

(** The four stages of the assembly pipeline. *)
Inductive Stage : Type :=
| Encode
| VfrRemux
| AudioMux
| Overlay.

(** Asynchronous work of the pipeline that is still running, with what its
    listeners captured: the [FFMpegRunner] of [checkForEnd], the
    [mp4fpsmod] child of [createVfrVideo], the [ffmpeg] child of
    [createCfrVideo], the [FFMpegRunner] of [createFinalVideo] and the
    promise of [server.addFile]. *)
Inductive Proc : Type :=
| EncodeRunner (videoname : jsstring)
| VfrChild
| CfrChild
| OverlayRunner
| AddFilePromise (path : jsstring).

(** The [data] of a message sent to the client. *)
Inductive Payload : Type :=
| PEmpty
| PText (s : string)
| PMsg (msg : string)
| PResult (result : jsstring)
| PFrameNum (frameNum : Z)
| PProgress (progress : jsnum)
| PFileInfo (fileInfo : jsstring).

(** What a handler does to the outside world, in order: it tries to send
    a message, calls [fs.writeFile] (the action carries the callback's
    closure, which holds the file name), deletes a file, starts an
    external tool, splices [encoders], hands the final video to
    [server.addFile], or closes the socket. *)
Inductive Action : Type :=
| ASend (cmd : string) (data : Payload) (delivered : bool)
| AWriteFile (callback : Pending)
| ADelete (path : jsstring)
| ASpawn (stage : Stage) (tool : string) (args : list jsstring)
| ASplice (ndx : Z) (removed : list jsstring)
| AAddFile (path : jsstring)
| AClose.

(** The closure variables of one [VideoEncoder] (from [count] to
    [videoLength], under the source's names), followed by the part of the
    process around it that the handlers read or change: the files on disk,
    the module-level array [encoders] (an encoder is identified by its
    unique [id]), and the asynchronous work in flight. *)
Record World : Type := mkWorld {
  count : Z;
  name : option jsstring;
  frames : list jsstring;
  numWriting : Z;
  numErrors : Z;
  ended : bool;
  framerate : Z;
  extension : jsstring;
  codec : option jsstring;
  connected : bool;
  ffmpegArguments : option (list jsstring);
  textoverlay : jsstring;
  videoLength : Z;
  disk : gset jsstring;
  encoders : list jsstring;
  writes : list Pending;
  procs : list Proc
}.

Definition set_count (v : Z) (w : World) : World :=
  mkWorld v (name w) (frames w) (numWriting w) (numErrors w) (ended w) (framerate w) (extension w) (codec w) (connected w) (ffmpegArguments w) (textoverlay w) (videoLength w) (disk w) (encoders w) (writes w) (procs w).
Definition set_name (v : option jsstring) (w : World) : World :=
  mkWorld (count w) v (frames w) (numWriting w) (numErrors w) (ended w) (framerate w) (extension w) (codec w) (connected w) (ffmpegArguments w) (textoverlay w) (videoLength w) (disk w) (encoders w) (writes w) (procs w).
Definition set_frames (v : list jsstring) (w : World) : World :=
  mkWorld (count w) (name w) v (numWriting w) (numErrors w) (ended w) (framerate w) (extension w) (codec w) (connected w) (ffmpegArguments w) (textoverlay w) (videoLength w) (disk w) (encoders w) (writes w) (procs w).
Definition set_numWriting (v : Z) (w : World) : World :=
  mkWorld (count w) (name w) (frames w) v (numErrors w) (ended w) (framerate w) (extension w) (codec w) (connected w) (ffmpegArguments w) (textoverlay w) (videoLength w) (disk w) (encoders w) (writes w) (procs w).
Definition set_numErrors (v : Z) (w : World) : World :=
  mkWorld (count w) (name w) (frames w) (numWriting w) v (ended w) (framerate w) (extension w) (codec w) (connected w) (ffmpegArguments w) (textoverlay w) (videoLength w) (disk w) (encoders w) (writes w) (procs w).
Definition set_ended (v : bool) (w : World) : World :=
  mkWorld (count w) (name w) (frames w) (numWriting w) (numErrors w) v (framerate w) (extension w) (codec w) (connected w) (ffmpegArguments w) (textoverlay w) (videoLength w) (disk w) (encoders w) (writes w) (procs w).
Definition set_framerate (v : Z) (w : World) : World :=
  mkWorld (count w) (name w) (frames w) (numWriting w) (numErrors w) (ended w) v (extension w) (codec w) (connected w) (ffmpegArguments w) (textoverlay w) (videoLength w) (disk w) (encoders w) (writes w) (procs w).
Definition set_extension (v : jsstring) (w : World) : World :=
  mkWorld (count w) (name w) (frames w) (numWriting w) (numErrors w) (ended w) (framerate w) v (codec w) (connected w) (ffmpegArguments w) (textoverlay w) (videoLength w) (disk w) (encoders w) (writes w) (procs w).
Definition set_codec (v : option jsstring) (w : World) : World :=
  mkWorld (count w) (name w) (frames w) (numWriting w) (numErrors w) (ended w) (framerate w) (extension w) v (connected w) (ffmpegArguments w) (textoverlay w) (videoLength w) (disk w) (encoders w) (writes w) (procs w).
Definition set_connected (v : bool) (w : World) : World :=
  mkWorld (count w) (name w) (frames w) (numWriting w) (numErrors w) (ended w) (framerate w) (extension w) (codec w) v (ffmpegArguments w) (textoverlay w) (videoLength w) (disk w) (encoders w) (writes w) (procs w).
Definition set_ffmpegArguments (v : option (list jsstring)) (w : World) : World :=
  mkWorld (count w) (name w) (frames w) (numWriting w) (numErrors w) (ended w) (framerate w) (extension w) (codec w) (connected w) v (textoverlay w) (videoLength w) (disk w) (encoders w) (writes w) (procs w).
Definition set_textoverlay (v : jsstring) (w : World) : World :=
  mkWorld (count w) (name w) (frames w) (numWriting w) (numErrors w) (ended w) (framerate w) (extension w) (codec w) (connected w) (ffmpegArguments w) v (videoLength w) (disk w) (encoders w) (writes w) (procs w).
Definition set_videoLength (v : Z) (w : World) : World :=
  mkWorld (count w) (name w) (frames w) (numWriting w) (numErrors w) (ended w) (framerate w) (extension w) (codec w) (connected w) (ffmpegArguments w) (textoverlay w) v (disk w) (encoders w) (writes w) (procs w).
Definition set_disk (v : gset jsstring) (w : World) : World :=
  mkWorld (count w) (name w) (frames w) (numWriting w) (numErrors w) (ended w) (framerate w) (extension w) (codec w) (connected w) (ffmpegArguments w) (textoverlay w) (videoLength w) v (encoders w) (writes w) (procs w).
Definition set_encoders (v : list jsstring) (w : World) : World :=
  mkWorld (count w) (name w) (frames w) (numWriting w) (numErrors w) (ended w) (framerate w) (extension w) (codec w) (connected w) (ffmpegArguments w) (textoverlay w) (videoLength w) (disk w) v (writes w) (procs w).
Definition set_writes (v : list Pending) (w : World) : World :=
  mkWorld (count w) (name w) (frames w) (numWriting w) (numErrors w) (ended w) (framerate w) (extension w) (codec w) (connected w) (ffmpegArguments w) (textoverlay w) (videoLength w) (disk w) (encoders w) v (procs w).
Definition set_procs (v : list Proc) (w : World) : World :=
  mkWorld (count w) (name w) (frames w) (numWriting w) (numErrors w) (ended w) (framerate w) (extension w) (codec w) (connected w) (ffmpegArguments w) (textoverlay w) (videoLength w) (disk w) (encoders w) (writes w) v.

(** The variables as the constructor initialises them, before it runs its
    last statements. *)
Definition fresh (files : gset jsstring) (registry : list jsstring) : World :=
  {| count := 0; name := None; frames := []; numWriting := 0;
     numErrors := 0; ended := false; framerate := 30;
     extension := u16 ".mp4"; codec := None; connected := true;
     ffmpegArguments := None; textoverlay := []; videoLength := 0;
     disk := files; encoders := registry; writes := []; procs := [] |}.

(** ** Handlers as state transformers that log their actions *)

Definition M (A : Type) : Type := World -> A * World * list Action.

Definition ret {A : Type} (a : A) : M A := fun w => (a, w, []).

Definition bind {A B : Type} (m : M A) (k : A -> M B) : M B :=
  fun w =>
    let '(a, w1, l1) := m w in
    let '(b, w2, l2) := k a w1 in
    (b, w2, l1 ++ l2).

Definition get : M World := fun w => (w, w, []).

Definition modify (f : World -> World) : M unit := fun w => (tt, f w, []).

Definition emit (a : Action) : M unit := fun w => (tt, w, [a]).

#[global] Instance M_ret : MRet M := @ret.
#[global] Instance M_bind : MBind M := fun A B k m => bind m k.

Definition skip : M unit := ret tt.

(** [l.forEach(f)] *)
Fixpoint forEach {A : Type} (f : A -> M unit) (l : list A) : M unit :=
  match l with
  | [] => skip
  | x :: l' => f x ;; forEach f l'
  end.

(** The state and the actions of running a handler. *)
Definition exec (m : M unit) (w : World) : World * list Action :=
  let '(_, w', l) := m w in (w', l).

(** ** JavaScript array operations on [encoders] *)

(** [l.indexOf(x)]: the first index of [x], or -1. *)
Fixpoint indexOf (x : jsstring) (l : list jsstring) : Z :=
  match l with
  | [] => -1
  | y :: l' =>
      if decide (y = x) then 0
      else let r := indexOf x l' in if r <? 0 then -1 else r + 1
  end.

(** [l.splice(start, 1)]: a negative [start] counts from the end (and is
    clamped at 0); the result is the array that is left and the array of
    removed elements. *)
Definition splice1 (start : Z) (l : list jsstring) : list jsstring * list jsstring :=
  let len := Z.of_nat (length l) in
  let s := if start <? 0 then Z.max (len + start) 0 else Z.min start len in
  let i := Z.to_nat s in
  (take i l ++ drop (S i) l, take 1 (drop i l)).

(** ** The files on disk *)

Definition remove_file (path : jsstring) (d : gset jsstring) : gset jsstring :=
  d ∖ {[path]}.

Definition add_file (path : jsstring) (d : gset jsstring) : gset jsstring :=
  {[path]} ∪ d.

(** ** Truthiness of optional values *)

(** [x || d] for an optional string: [undefined] and the empty string are
    falsy. *)
Definition or_str (x : option jsstring) (d : jsstring) : jsstring :=
  match x with
  | Some (c :: s) => c :: s
  | _ => d
  end.

(** [x || d] for an optional number: [undefined] and 0 are falsy. *)
Definition or_num (x : option Z) (d : Z) : Z :=
  match x with
  | Some v => if v =? 0 then d else v
  | None => d
  end.

Definition truthy_str (x : option jsstring) : bool :=
  match x with
  | Some (_ :: _) => true
  | _ => false
  end.

(** A variable that holds a string or [undefined], concatenated to a
    string. *)
Definition str_of (x : option jsstring) : jsstring :=
  default (u16 "undefined") x.

Definition EXPECTED_HEADER : jsstring := u16 "data:image/png;base64,".

(** ** Inputs of the transition system *)

(** The messages [onMessage] dispatches on (a [cmd] that is not a key of
    [messageHandlers] is [CmdUnknown]), the socket's two events, and the
    completions of asynchronous work.  A completion names the work by its
    position in [writes] or [procs]. *)
Inductive Event : Type :=
| CmdStart (data : option StartData)
| CmdFrame (dataURL : jsstring)
| CmdEnd
| CmdTimestamps (data : jsstring)
| CmdAudioFile (data : jsstring)
| CmdMeta (textOverlay : jsstring) (length : Z)
| CmdUnknown
| Disconnected
| SocketError
| WriteDone (i : nat) (err : bool)
| RunnerFrame (i : nat) (frameNum : Z)
| RunnerError (i : nat) (result : jsstring)
| RunnerDone (i : nat)
| ChildClose (i : nat) (code : Z)
| AddFileDone (i : nat) (fileInfo : option jsstring).

(** An event together with what [client.send] does if the handler calls
    it: [true] when it returns, [false] when it throws.  No handler calls
    [client.send] more than once. *)
Definition Input : Type := Event * bool.

Definition ok (e : Event) : Input := (e, true).
Definition unsent (e : Event) : Input := (e, false).

(** The states of the specification's session state machine.  The source
    keeps no such variable; [phase] below reads it off the closure
    variables. *)
Inductive Phase : Type :=
| Idle
| Capturing
| Ending
| Assembling
| Done.

Definition phase (w : World) : Phase :=
  match name w with
  | None => Idle
  | Some _ =>
      if negb (ended w) then Capturing
      else if negb (numWriting w =? 0) then Ending
      else match procs w with [] => Done | _ :: _ => Assembling end
  end.

Definition in_progress (w : World) : Prop :=
  phase w = Capturing \/ phase w = Ending \/ phase w = Assembling.

(** ** Reading the log of actions *)

Definition is_encode_spawn (a : Action) : bool :=
  match a with ASpawn Encode _ _ => true | _ => false end.

(** A handler started pipeline assembly: it created the [FFMpegRunner] of
    [checkForEnd]. *)
Definition starts_assembly (l : list Action) : bool := existsb is_encode_spawn l.

(** The stages whose external tool the handler started. *)
Definition spawned (l : list Action) : list Stage :=
  omap (fun a => match a with ASpawn st _ _ => Some st | _ => None end) l.

(** The messages the handler tried to send under the command [c]. *)
Definition sent (c : string) (l : list Action) : list Payload :=
  omap (fun a => match a with
                 | ASend c' d _ => if decide (c' = c) then Some d else None
                 | _ => None
                 end) l.

(** The frame indices the handlers assigned, in order: the [frameNum] of
    every frame write they started. *)
Definition assigned (l : list Action) : list Z :=
  omap (fun a => match a with
                 | AWriteFile (FrameWrite n _) => Some n
                 | _ => None
                 end) l.

(** The [splice] call removed [x] from [encoders]. *)
Definition removes (x : jsstring) (a : Action) : bool :=
  match a with
  | ASplice _ r => bool_decide (x ∈ r)
  | _ => false
  end.

(** How many [splice] calls removed [x] from [encoders]. *)
Definition removals (x : jsstring) (l : list Action) : nat :=
  length (List.filter (removes x) l).

(** [n, n+1, ..., n+len-1] *)
Fixpoint consecutive (n : Z) (len : nat) : list Z :=
  match len with
  | O => []
  | S k => n :: consecutive (n + 1) k
  end.

(** ** Concrete inputs used by the examples *)

Definition demo_id : jsstring := u16 "7".

(** Frames and videos kept in different directories. *)
Definition split_dirs : Options :=
  {| frameDir := u16 "frames"; videoDir := u16 "videos";
     keepFrames := false; allowArbitraryFfmpegArguments := false |}.

(** Frames and videos in one directory. *)
Definition one_dir : Options :=
  {| frameDir := u16 "out"; videoDir := u16 "out";
     keepFrames := false; allowArbitraryFfmpegArguments := false |}.

(** One directory, and the frames are kept after assembly. *)
Definition keeping : Options :=
  {| frameDir := u16 "out"; videoDir := u16 "out";
     keepFrames := true; allowArbitraryFfmpegArguments := false |}.

(** A well-formed frame payload. *)
Definition demo_frame : jsstring := u16 "data:image/png;base64,iVBORw0KGgo=".

(** The identity stands in for [toUpperCase], and an empty list for the
    overlay filter, where an example runs the model. *)
Definition no_upper (s : jsstring) : jsstring := s.
Definition no_filter (_ : jsstring) (_ : Z) : list jsstring := [].

(** ** The handlers of [VideoEncoder] *)

Section VideoEncoder.

(** The constructor's arguments [id] and [options]. *)
Variable id : jsstring.
Variable options : Options.

(** [String.prototype.toUpperCase], a builtin of the host. *)
Variable toUpperCase : jsstring -> jsstring.

(** The elements of the [-filter_complex] argument that [createFinalVideo]
    builds from [textoverlay] and [videoLength]: the text needs the host's
    font lookup and the printing of floating-point sums, and is left
    abstract. *)
Variable overlayFilter : jsstring -> Z -> list jsstring.

(** Modelled from the spec: [utils.deleteNoFail] (lib/utils.js), whose
    deletion is best-effort and does not raise when the file is already
    absent. *)
Definition deleteNoFail (path : jsstring) : M unit :=
  modify (fun w => set_disk (remove_file path (disk w)) w) ;;
  emit (ADelete path).

Definition cleanup : M unit :=
  w ← get;
  (if negb (length (frames w) =? 0)%nat then
     if negb (keepFrames options) then
       forEach deleteNoFail (frames w) ;;
       modify (set_frames [])
     else skip
   else skip) ;;
  w ← get;
  deleteNoFail (path_join (videoDir options) (u16 "ts-" ++ str_of (name w) ++ u16 ".txt")) ;;
  deleteNoFail (path_join (videoDir options) (u16 "vfr-" ++ str_of (name w) ++ u16 ".mp4")) ;;
  deleteNoFail (path_join (videoDir options) (u16 "cfr-" ++ str_of (name w) ++ u16 ".mp4")) ;;
  deleteNoFail (path_join (videoDir options) (str_of (name w) ++ u16 ".mp3")) ;;
  deleteNoFail (path_join (videoDir options) (str_of (name w) ++ u16 ".mp4")).

(** [disconnect]: the three [client.on(..., undefined)] calls change
    nothing the encoder reads, and [client.close()] is wrapped in a
    [try]. *)
Definition disconnect : M unit :=
  modify (set_connected false) ;;
  w ← get;
  let ndx := indexOf id (encoders w) in
  let '(rest, removed) := splice1 ndx (encoders w) in
  modify (set_encoders rest) ;;
  emit (ASplice ndx removed) ;;
  cleanup ;;
  emit AClose.

(** [send]: when [client.send] throws, the encoder disconnects. *)
Definition send (tx : bool) (cmd : string) (data : Payload) : M unit :=
  emit (ASend cmd data tx) ;;
  if tx then skip else disconnect.

Definition sendCmd (tx : bool) (cmd : string) (data : Payload) : M unit :=
  send tx cmd data.

Definition handleStart (tx : bool) (data : option StartData) : M unit :=
  w ← get;
  match name w with
  | Some _ => sendCmd tx "error" (PText "video already in progress")
  | None =>
      let data := default no_start_data data in
      let started : M unit :=
        modify (set_count 0) ;;
        modify (set_numErrors 0) ;;
        modify (set_ended false) ;;
        modify (set_name (Some (safeName (or_str (d_name data) (u16 "untitled") ++ u16 "-" ++ id)))) ;;
        modify (set_frames []) in
      modify (set_framerate (or_num (d_framerate data) 30)) ;;
      modify (set_extension (safeName (or_str (d_extension data) (u16 ".mp4")))) ;;
      modify (set_codec (d_codec data)) ;;
      if allowArbitraryFfmpegArguments options then
        modify (set_ffmpegArguments (d_ffmpegArguments data)) ;;
        started
      else if bool_decide (is_Some (d_ffmpegArguments data)) then
        sendCmd tx "error"
          (PMsg "ffmpegArguments not allowed without --allow-arbitrary-ffmpeg-argumments command line option")
      else started
  end.

Definition handleFFMpegError (tx : bool) (result : jsstring) : M unit :=
  sendCmd tx "error" (PResult result) ;;
  cleanup ;;
  modify (set_name None).

Definition handleFFMpegFrame (tx : bool) (frameNum : Z) : M unit :=
  w ← get;
  sendCmd tx "progress" (PProgress (jsdiv frameNum (Z.of_nat (length (frames w))))).

(** Start asynchronous work [p] with its listeners attached. *)
Definition start_proc (p : Proc) (stage : Stage) (tool : string) (args : list jsstring) : M unit :=
  modify (fun w => set_procs (procs w ++ [p]) w) ;;
  emit (ASpawn stage tool args).

Definition checkForEnd : M unit :=
  w ← get;
  if ended w && (numWriting w =? 0) then
    let videoname := path_join (videoDir options) (str_of (name w) ++ extension w) in
    let framesname := path_join (frameDir options) (str_of (name w) ++ u16 "-%d.png") in
    let args :=
      [u16 "-framerate"; num_to_string (framerate w);
       u16 "-pattern_type"; u16 "sequence";
       u16 "-start_number"; u16 "0";
       u16 "-i"; framesname;
       u16 "-y"] in
    let args :=
      if truthy_str (codec w) then args ++ [u16 "-c:v"; str_of (codec w)]
      else if bool_decide (extension w = u16 ".mp4") then
        args ++ [u16 "-c:v"; u16 "libx264"; u16 "-pix_fmt"; u16 "yuv420p"]
      else args in
    let args :=
      match ffmpegArguments w with
      | Some extra => args ++ extra
      | None => args
      end in
    let args := args ++ [videoname] in
    start_proc (EncodeRunner videoname) Encode "ffmpeg" args
  else skip.

Definition createVfrVideo (videoname : jsstring) : M unit :=
  w ← get;
  start_proc VfrChild VfrRemux "mp4fpsmod"
    [u16 "-o"; path_join (frameDir options) (u16 "vfr-" ++ str_of (name w) ++ u16 ".mp4");
     u16 "-t"; path_join (frameDir options) (u16 "ts-" ++ str_of (name w) ++ u16 ".txt");
     videoname].

Definition createCfrVideo : M unit :=
  w ← get;
  start_proc CfrChild AudioMux "ffmpeg"
    [u16 "-y";
     u16 "-i"; path_join (frameDir options) (u16 "vfr-" ++ str_of (name w) ++ u16 ".mp4");
     u16 "-i"; path_join (frameDir options) (str_of (name w) ++ u16 ".mp3");
     u16 "-map"; u16 "0:v";
     u16 "-map"; u16 "1:a";
     u16 "-shortest";
     path_join (frameDir options) (u16 "cfr-" ++ str_of (name w) ++ u16 ".mp4")].

Definition createFinalVideo : M unit :=
  w ← get;
  start_proc OverlayRunner Overlay "ffmpeg"
    ([u16 "-y";
      u16 "-i"; path_join (frameDir options) (u16 "cfr-" ++ str_of (name w) ++ u16 ".mp4");
      u16 "-filter_complex"]
     ++ overlayFilter (textoverlay w) (videoLength w)
     ++ [u16 "-codec:a"; u16 "copy";
         path_join (frameDir options) (u16 "final-" ++ str_of (name w) ++ u16 ".mp4")]).

(** The ['done'] listener of the runner of [createFinalVideo]. *)
Definition finalDone : M unit :=
  w ← get;
  let path := path_join (frameDir options) (u16 "final-" ++ str_of (name w) ++ u16 ".mp4") in
  modify (fun w => set_procs (procs w ++ [AddFilePromise path]) w) ;;
  emit (AAddFile path).

(** The [then] callback of [server.addFile]. *)
Definition fileAdded (tx : bool) (fileInfo : jsstring) : M unit :=
  sendCmd tx "end" (PFileInfo fileInfo) ;;
  cleanup.

Definition handleFrame (tx : bool) (dataURL : jsstring) : M unit :=
  w ← get;
  match name w with
  | None => sendCmd tx "error" (PText "video not started")
  | Some n =>
      if bool_decide (substr dataURL 0 (length EXPECTED_HEADER) = EXPECTED_HEADER) then
        let frameNum := count w in
        modify (set_count (count w + 1)) ;;
        let filename :=
          path_join (frameDir options) (n ++ u16 "-" ++ num_to_string frameNum ++ u16 ".png") in
        modify (fun w => set_numWriting (numWriting w + 1) w) ;;
        modify (fun w => set_writes (writes w ++ [FrameWrite frameNum filename]) w) ;;
        emit (AWriteFile (FrameWrite frameNum filename))
      else skip
  end.

(** The callback [handleFrame] hands to [fs.writeFile], with the
    [frameNum] and [filename] it captured. *)
Definition frameWritten (tx : bool) (frameNum : Z) (filename : jsstring) (err : bool) : M unit :=
  let check : M unit :=
    w ← get;
    if numWriting w =? 0 then checkForEnd else skip in
  modify (fun w => set_numWriting (numWriting w - 1) w) ;;
  if err then
    modify (fun w => set_numErrors (numErrors w + 1) w) ;;
    check
  else
    w ← get;
    if negb (connected w) then deleteNoFail filename
    else
      modify (fun w => set_frames (frames w ++ [filename]) w) ;;
      sendCmd tx "frame" (PFrameNum frameNum) ;;
      check.

Definition handleEnd (tx : bool) : M unit :=
  w ← get;
  match name w with
  | None => sendCmd tx "error" (PText "video not started")
  | Some _ =>
      modify (set_ended true) ;;
      checkForEnd
  end.

Definition handleTimestamps (data : jsstring) : M unit :=
  w ← get;
  let filename := path_join (frameDir options) (u16 "ts-" ++ str_of (name w) ++ u16 ".txt") in
  modify (fun w => set_writes (writes w ++ [PlainWrite filename]) w) ;;
  emit (AWriteFile (PlainWrite filename)).

Definition handleAudioFile (data : jsstring) : M unit :=
  w ← get;
  let filename := path_join (frameDir options) (str_of (name w) ++ u16 ".mp3") in
  modify (fun w => set_writes (writes w ++ [PlainWrite filename]) w) ;;
  emit (AWriteFile (PlainWrite filename)).

Definition handleMeta (textOverlay : jsstring) (length : Z) : M unit :=
  modify (set_textoverlay (toUpperCase textOverlay)) ;;
  modify (set_videoLength length).

(** The last statements of the constructor: greet the client and enter
    the registry. *)
Definition construct (tx : bool) : M unit :=
  sendCmd tx "start" PEmpty ;;
  modify (fun w => set_encoders (encoders w ++ [id]) w).

(** ** The transition system *)

(** One handler invocation.  [None] when the event cannot happen in [w]:
    a completion of work that is not in flight.

    Modelled from the spec: [FFMpegRunner] (lib/ffmpeg-runner.js), a
    child process and the promise of [server.addFile] each deliver
    exactly one terminal event, so the work leaves [procs] when its
    terminal listener runs; a runner reports any number of frames before
    that.  A write that completes without error has put its file on
    disk. *)
Definition step (w : World) (i : Input) : option (World * list Action) :=
  let '(e, tx) := i in
  match e with
  | CmdStart data => Some (exec (handleStart tx data) w)
  | CmdFrame dataURL => Some (exec (handleFrame tx dataURL) w)
  | CmdEnd => Some (exec (handleEnd tx) w)
  | CmdTimestamps data => Some (exec (handleTimestamps data) w)
  | CmdAudioFile data => Some (exec (handleAudioFile data) w)
  | CmdMeta t len => Some (exec (handleMeta t len) w)
  | CmdUnknown => Some (w, [])
  | Disconnected => Some (exec disconnect w)
  | SocketError => Some (exec disconnect w)
  | WriteDone k err =>
      match writes w !! k with
      | Some (FrameWrite frameNum filename) =>
          let w1 := set_writes (delete k (writes w)) w in
          let w2 := if err then w1 else set_disk (add_file filename (disk w1)) w1 in
          Some (exec (frameWritten tx frameNum filename err) w2)
      | Some (PlainWrite filename) =>
          let w1 := set_writes (delete k (writes w)) w in
          Some (if err then w1 else set_disk (add_file filename (disk w1)) w1, [])
      | None => None
      end
  | RunnerFrame k frameNum =>
      match procs w !! k with
      | Some (EncodeRunner _) | Some OverlayRunner =>
          Some (exec (handleFFMpegFrame tx frameNum) w)
      | _ => None
      end
  | RunnerError k result =>
      match procs w !! k with
      | Some (EncodeRunner _) | Some OverlayRunner =>
          Some (exec (handleFFMpegError tx result) (set_procs (delete k (procs w)) w))
      | _ => None
      end
  | RunnerDone k =>
      match procs w !! k with
      | Some (EncodeRunner videoname) =>
          Some (exec (createVfrVideo videoname) (set_procs (delete k (procs w)) w))
      | Some OverlayRunner =>
          Some (exec finalDone (set_procs (delete k (procs w)) w))
      | _ => None
      end
  | ChildClose k code =>
      match procs w !! k with
      | Some VfrChild => Some (exec createCfrVideo (set_procs (delete k (procs w)) w))
      | Some CfrChild => Some (exec createFinalVideo (set_procs (delete k (procs w)) w))
      | _ => None
      end
  | AddFileDone k fileInfo =>
      match procs w !! k with
      | Some (AddFilePromise _) =>
          let w1 := set_procs (delete k (procs w)) w in
          match fileInfo with
          | Some info => Some (exec (fileAdded tx info) w1)
          | None => Some (w1, [])
          end
      | _ => None
      end
  end.

(** A run: the world and the log after the inputs, in order. *)
Fixpoint run (w : World) (ins : list Input) : option (World * list Action) :=
  match ins with
  | [] => Some (w, [])
  | i :: ins' =>
      match step w i with
      | Some (w1, l1) =>
          match run w1 ins' with
          | Some (w2, l2) => Some (w2, l1 ++ l2)
          | None => None
          end
      | None => None
      end
  end.

(** A [start] message that [handleStart] does not reject as already in
    progress: it begins a new capture. *)
Definition restarts (w : World) (i : Input) : bool :=
  match fst i, name w with
  | CmdStart _, None => true
  | _, _ => false
  end.

(** No input of the run begins a new capture: the run stays within one
    session. *)
Fixpoint one_session (w : World) (ins : list Input) : bool :=
  match ins with
  | [] => true
  | i :: ins' =>
      negb (restarts w i) &&
      match step w i with
      | Some (w1, _) => one_session w1 ins'
      | None => true
      end
  end.


(** The world a new connection starts from: the constructor has run on an
    empty disk. *)
Definition connect (registry : list jsstring) : World :=
  fst (exec (construct true) (fresh ∅ registry)).

(** The world after a new connection has taken the inputs [ins] (the
    connection's first world if they cannot all happen). *)
Definition world_after (ins : list Input) : World :=
  match run (connect []) ins with
  | Some (w, _) => w
  | None => connect []
  end.

(** ** More readings of a world and of a log *)

Definition is_frame_write (p : Pending) : bool :=
  match p with FrameWrite _ _ => true | PlainWrite _ => false end.

(** The number of frame writes whose callback has not run yet. *)
Definition pending_frames (w : World) : Z :=
  Z.of_nat (length (List.filter is_frame_write (writes w))).

(** The files of the frame writes the handlers started, in order. *)
Definition frame_files (l : list Action) : list jsstring :=
  omap (fun a => match a with
                 | AWriteFile (FrameWrite _ f) => Some f
                 | _ => None
                 end) l.

(** The file [handleFrame] writes frame [frameNum] of the session [n]
    to. *)
Definition frame_path (n : jsstring) (frameNum : Z) : jsstring :=
  path_join (frameDir options) (n ++ u16 "-" ++ num_to_string frameNum ++ u16 ".png").

(** The five paths [cleanup] deletes after the frames. *)
Definition intermediates (w : World) : list jsstring :=
  [path_join (videoDir options) (u16 "ts-" ++ str_of (name w) ++ u16 ".txt");
   path_join (videoDir options) (u16 "vfr-" ++ str_of (name w) ++ u16 ".mp4");
   path_join (videoDir options) (u16 "cfr-" ++ str_of (name w) ++ u16 ".mp4");
   path_join (videoDir options) (str_of (name w) ++ u16 ".mp3");
   path_join (videoDir options) (str_of (name w) ++ u16 ".mp4")].

(** Everything [cleanup] deletes: the registered frames, unless they are
    kept, and the five paths. *)
Definition doomed (w : World) : list jsstring :=
  (if keepFrames options then [] else frames w) ++ intermediates w.

(** The timestamp file of a session: [handleTimestamps] writes it and
    [createVfrVideo] passes it to [mp4fpsmod]. *)
Definition ts_path (n : option jsstring) : jsstring :=
  path_join (frameDir options) (u16 "ts-" ++ str_of n ++ u16 ".txt").

(** * Properties *)

(** ** [safeName] *)

Lemma safeName_length (title : jsstring) :
  length (safeName title) = Nat.min 30 (length title).
Proof.
  unfold safeName, substr. rewrite length_map, drop_0, length_take. reflexivity.
Qed.

Lemma safeName_lookup (title : jsstring) (i : nat) :
  safeName title !! i =
  (fun c => if in_class c then c else underscore) <$> take 30 title !! i.
Proof.
  unfold safeName, substr. rewrite drop_0. apply list_lookup_fmap.
Qed.

(** C6, as amended: the sanitized name has the length of the title capped
    at 30, every one of its characters is in [[0-9A-Za-z-.]] or is the
    underscore, and position by position it is the truncated title with
    every character outside the class replaced by the underscore. *)
Theorem safeName_sanitizes (title : jsstring) :
  (length (safeName title) <= 30)%nat /\
  length (safeName title) = Nat.min 30 (length title) /\
  Forall (fun c => in_class c = true \/ c = underscore) (safeName title) /\
  Forall2 (fun c c' => c' = if in_class c then c else underscore)
    (take 30 title) (safeName title).
Proof.
  split; [rewrite safeName_length; lia|].
  split; [apply safeName_length|].
  unfold safeName, substr. rewrite drop_0.
  split.
  - apply Forall_fmap, Forall_forall. intros c _. simpl.
    destruct (in_class c) eqn:E; auto.
  - apply Forall2_fmap_r, Forall_Forall2_diag, Forall_forall. auto.
Qed.

(** ** Reading logs *)

Lemma starts_assembly_nil : starts_assembly [] = false.
Proof. reflexivity. Qed.

Lemma starts_assembly_cons (a : Action) (l : list Action) :
  starts_assembly (a :: l) = is_encode_spawn a || starts_assembly l.
Proof. reflexivity. Qed.

Lemma starts_assembly_app (l1 l2 : list Action) :
  starts_assembly (l1 ++ l2) = starts_assembly l1 || starts_assembly l2.
Proof. apply existsb_app. Qed.

Lemma starts_assembly_deletes (files : list jsstring) :
  starts_assembly (map ADelete files) = false.
Proof. induction files; simpl; auto. Qed.

Lemma assigned_nil : assigned [] = [].
Proof. reflexivity. Qed.

Lemma assigned_cons (a : Action) (l : list Action) :
  assigned (a :: l) =
  match a with
  | AWriteFile (FrameWrite n _) => n :: assigned l
  | _ => assigned l
  end.
Proof. destruct a as [| [] | | | | |]; reflexivity. Qed.

Lemma assigned_app (l1 l2 : list Action) :
  assigned (l1 ++ l2) = assigned l1 ++ assigned l2.
Proof. apply omap_app. Qed.

Lemma assigned_deletes (files : list jsstring) :
  assigned (map ADelete files) = [].
Proof. induction files; simpl; auto. Qed.

Lemma spawned_nil : spawned [] = [].
Proof. reflexivity. Qed.

Lemma spawned_cons (a : Action) (l : list Action) :
  spawned (a :: l) =
  match a with
  | ASpawn st _ _ => st :: spawned l
  | _ => spawned l
  end.
Proof. destruct a; reflexivity. Qed.

Lemma spawned_app (l1 l2 : list Action) :
  spawned (l1 ++ l2) = spawned l1 ++ spawned l2.
Proof. apply omap_app. Qed.

Lemma spawned_deletes (files : list jsstring) :
  spawned (map ADelete files) = [].
Proof. induction files; simpl; auto. Qed.

Lemma sent_nil (c : string) : sent c [] = [].
Proof. reflexivity. Qed.

Lemma sent_cons (c : string) (a : Action) (l : list Action) :
  sent c (a :: l) =
  match a with
  | ASend c' d _ => if decide (c' = c) then d :: sent c l else sent c l
  | _ => sent c l
  end.
Proof. destruct a; try reflexivity. unfold sent. simpl. destruct (decide _); reflexivity. Qed.

Lemma sent_app (c : string) (l1 l2 : list Action) :
  sent c (l1 ++ l2) = sent c l1 ++ sent c l2.
Proof. apply omap_app. Qed.

Lemma sent_deletes (c : string) (files : list jsstring) :
  sent c (map ADelete files) = [].
Proof. induction files; simpl; auto. Qed.

Lemma removals_nil (x : jsstring) : removals x [] = 0%nat.
Proof. reflexivity. Qed.

Lemma removals_cons (x : jsstring) (a : Action) (l : list Action) :
  removals x (a :: l) = ((if removes x a then 1 else 0) + removals x l)%nat.
Proof. unfold removals. simpl. destruct (removes x a); reflexivity. Qed.

Lemma removals_app (x : jsstring) (l1 l2 : list Action) :
  removals x (l1 ++ l2) = (removals x l1 + removals x l2)%nat.
Proof. unfold removals. rewrite List.filter_app, length_app. reflexivity. Qed.

Lemma removals_deletes (x : jsstring) (files : list jsstring) :
  removals x (map ADelete files) = 0%nat.
Proof. induction files; simpl; auto. Qed.

#[local] Hint Rewrite starts_assembly_nil starts_assembly_cons starts_assembly_app
  starts_assembly_deletes
  assigned_nil assigned_cons assigned_app assigned_deletes
  spawned_nil spawned_cons spawned_app spawned_deletes
  sent_nil sent_cons sent_app sent_deletes
  removals_nil removals_cons removals_app removals_deletes : log.

(** ** The handlers that loop or call each other *)

#[local] Arguments u16 : simpl never.
#[local] Arguments path_join : simpl never.
#[local] Arguments str_of : simpl never.
#[local] Arguments num_to_string : simpl never.
#[local] Arguments safeName : simpl never.
#[local] Arguments remove_file : simpl never.
#[local] Arguments add_file : simpl never.
#[local] Arguments splice1 : simpl never.
#[local] Arguments indexOf : simpl never.
#[local] Arguments EXPECTED_HEADER : simpl never.

Lemma set_disk_same (w : World) : set_disk (disk w) w = w.
Proof. destruct w; reflexivity. Qed.

Lemma set_frames_same (w : World) : set_frames (frames w) w = w.
Proof. destruct w; reflexivity. Qed.

Lemma forEach_deleteNoFail (files : list jsstring) (w : World) :
  exists d, forEach deleteNoFail files w = (tt, set_disk d w, map ADelete files).
Proof.
  revert w. induction files as [|f files IH]; intros w.
  - exists (disk w). simpl. unfold skip, ret. rewrite set_disk_same. reflexivity.
  - destruct (IH (set_disk (remove_file f (disk w)) w)) as [d E].
    exists d. simpl. unfold mbind, M_bind, bind at 1.
    unfold deleteNoFail at 1, mbind, M_bind, bind, modify, emit.
    rewrite E. reflexivity.
Qed.

(** [cleanup] changes nothing but the disk and, when it deletes the
    frames, the frame list; it only deletes. *)
Lemma cleanup_spec (w : World) :
  exists d fr files,
    cleanup w = (tt, set_disk d (set_frames fr w), map ADelete files) /\
    (fr = frames w \/ fr = []).
Proof.
  unfold cleanup, mbind, M_bind, bind, get.
  destruct (negb (length (frames w) =? 0)%nat);
    [destruct (negb (keepFrames options))|].
  - destruct (forEach_deleteNoFail (frames w) w) as [d Ed]. rewrite Ed.
    unfold deleteNoFail, mbind, M_bind, bind, modify, emit. cbn.
    eexists _, [], (frames w ++ [_; _; _; _; _]). split; [|auto].
    rewrite map_app, app_nil_r. cbn. reflexivity.
  - unfold deleteNoFail, mbind, M_bind, bind, modify, emit, skip, ret. cbn.
    eexists _, (frames w), [_; _; _; _; _]. split; [|auto].
    rewrite set_frames_same. reflexivity.
  - unfold deleteNoFail, mbind, M_bind, bind, modify, emit, skip, ret. cbn.
    eexists _, (frames w), [_; _; _; _; _]. split; [|auto].
    rewrite set_frames_same. reflexivity.
Qed.

(** [disconnect] clears [connected], splices [encoders] at the index of
    this encoder, cleans up and closes the socket. *)
Lemma disconnect_spec (w : World) :
  exists d fr files,
    disconnect w =
      (tt,
       set_disk d (set_frames fr
         (set_encoders (fst (splice1 (indexOf id (encoders w)) (encoders w)))
            (set_connected false w))),
       ASplice (indexOf id (encoders w))
               (snd (splice1 (indexOf id (encoders w)) (encoders w)))
         :: map ADelete files ++ [AClose]) /\
    (fr = frames w \/ fr = []).
Proof.
  unfold disconnect, mbind, M_bind, bind, get, modify, emit. cbn.
  destruct (splice1 (indexOf id (encoders w)) (encoders w)) as [rest removed] eqn:E.
  cbn.
  destruct (cleanup_spec (set_encoders rest (set_connected false w)))
    as (d & fr & files & Ec & Hfr).
  rewrite Ec. exists d, fr, files. split; [reflexivity|exact Hfr].
Qed.

Lemma send_delivered (cmd : string) (data : Payload) (w : World) :
  send true cmd data w = (tt, w, [ASend cmd data true]).
Proof. reflexivity. Qed.

Lemma send_failed (cmd : string) (data : Payload) (w : World) :
  exists d fr files,
    send false cmd data w =
      (tt,
       set_disk d (set_frames fr
         (set_encoders (fst (splice1 (indexOf id (encoders w)) (encoders w)))
            (set_connected false w))),
       ASend cmd data false
         :: ASplice (indexOf id (encoders w))
                    (snd (splice1 (indexOf id (encoders w)) (encoders w)))
         :: map ADelete files ++ [AClose]) /\
    (fr = frames w \/ fr = []).
Proof.
  unfold send, mbind, M_bind, bind, emit.
  destruct (disconnect_spec w) as (d & fr & files & E & Hfr).
  rewrite E. exists d, fr, files. split; [reflexivity|exact Hfr].
Qed.

(** ** Running one handler symbolically *)

#[local] Arguments send : simpl never.
#[local] Arguments starts_assembly : simpl never.
#[local] Arguments removals : simpl never.
#[local] Arguments assigned : simpl never.
#[local] Arguments sent : simpl never.
#[local] Arguments spawned : simpl never.
#[local] Arguments cleanup : simpl never.
#[local] Arguments disconnect : simpl never.

Ltac unfold_handlers H :=
  unfold step, exec, handleStart, handleFrame, handleEnd, handleTimestamps,
    handleAudioFile, handleMeta, handleFFMpegError, handleFFMpegFrame,
    frameWritten, checkForEnd, createVfrVideo, createCfrVideo,
    createFinalVideo, finalDone, fileAdded, sendCmd, start_proc,
    mbind, M_bind, bind, get, modify, emit, skip, ret in H;
  cbn in H.

Ltac call_step H :=
  match type of H with
  | context [send true ?c ?d ?w] => rewrite (send_delivered c d w) in H
  | context [send false ?c ?d ?w] =>
      let E := fresh "E" in
      destruct (send_failed c d w) as (? & ? & ? & E & ?);
      rewrite E in H; clear E
  | context [cleanup ?w] =>
      let E := fresh "E" in
      destruct (cleanup_spec w) as (? & ? & ? & E & ?);
      rewrite E in H; clear E
  | context [disconnect ?w] =>
      let E := fresh "E" in
      destruct (disconnect_spec w) as (? & ? & ? & E & ?);
      rewrite E in H; clear E
  | context [match ?x with _ => _ end] =>
      lazymatch type of x with
      | prod _ _ => fail
      | _ => destruct x eqn:?
      end
  end; cbn in H.

Ltac run_handler H :=
  unfold_handlers H; repeat call_step H;
  try discriminate H;
  try (injection H as <- <-).

Ltac bool_facts :=
  repeat match goal with
  | H : (_ =? _) = true |- _ => apply Z.eqb_eq in H
  | H : (_ =? _) = false |- _ => apply Z.eqb_neq in H
  | H : _ && _ = true |- _ => apply andb_prop in H as [? ?]
  | H : _ && _ = false |- _ => apply andb_false_iff in H as [?|?]
  | H : negb _ = true |- _ => apply negb_true_iff in H
  | H : negb _ = false |- _ => apply negb_false_iff in H
  end.


(** ** Frame indices *)

Lemma consecutive_app (n : Z) (a b : nat) :
  consecutive n (a + b) = consecutive n a ++ consecutive (n + Z.of_nat a) b.
Proof.
  revert n. induction a as [|a IH]; intros n; simpl.
  - f_equal. lia.
  - rewrite IH. do 3 f_equal. lia.
Qed.

Lemma consecutive_lower (n : Z) (k : nat) :
  Forall (fun x => n <= x) (consecutive n k).
Proof.
  revert n. induction k as [|k IH]; intros n; simpl; constructor.
  - lia.
  - eapply Forall_impl; [apply IH|]. simpl. intros. lia.
Qed.

Lemma consecutive_sorted (n : Z) (k : nat) :
  StronglySorted Z.lt (consecutive n k).
Proof.
  revert n. induction k as [|k IH]; intros n; simpl; constructor.
  - apply IH.
  - eapply Forall_impl; [apply consecutive_lower|]. simpl. intros. lia.
Qed.

Lemma sorted_lt_NoDup (l : list Z) : StronglySorted Z.lt l -> NoDup l.
Proof.
  induction 1 as [|x l Hs IH Hx]; constructor; auto.
  intros Hin. rewrite Forall_forall in Hx. specialize (Hx x Hin). lia.
Qed.

(** One handler assigns at most one index, the current [count], and
    moves [count] past it; [count] goes back only when [handleStart]
    begins a new capture. *)
Lemma step_assigns (w : World) (i : Input) (w' : World) (acts : list Action) :
  step w i = Some (w', acts) ->
  restarts w i = false ->
  assigned acts = consecutive (count w) (length (assigned acts)) /\
  count w' = count w + Z.of_nat (length (assigned acts)).
Proof.
  intros H R. destruct i as [e tx]. unfold restarts in R.
  destruct e; cbn [fst] in R; try destruct tx.
  all: run_handler H.
  all: autorewrite with log; cbn.
  all: try discriminate R.
  all: split; [reflexivity|lia].
Qed.

(** C5: along any run that stays within one session (whatever the order
    and the outcome of the write completions in it), the indices assigned
    to the accepted frames are [count], [count + 1], ... in order of
    receipt; so they are strictly increasing and none is used twice, and
    [count] ends just past the last one. *)
Theorem frame_indices_consecutive (w : World) (ins : list Input) (w' : World)
    (acts : list Action) :
  run w ins = Some (w', acts) ->
  one_session w ins = true ->
  assigned acts = consecutive (count w) (length (assigned acts)) /\
  count w' = count w + Z.of_nat (length (assigned acts)) /\
  StronglySorted Z.lt (assigned acts) /\
  NoDup (assigned acts).
Proof.
  intros H S.
  assert (A : assigned acts = consecutive (count w) (length (assigned acts)) /\
              count w' = count w + Z.of_nat (length (assigned acts))).
  { revert w w' acts H S. induction ins as [|i ins IH]; intros w w' acts H S.
    - injection H as <- <-. split; [reflexivity|simpl; lia].
    - simpl in H, S. apply andb_prop in S as [R S].
      apply negb_true_iff in R.
      destruct (step w i) as [[w1 l1]|] eqn:E1; [|discriminate H].
      destruct (run w1 ins) as [[w2 l2]|] eqn:E2; [|discriminate H].
      injection H as <- <-.
      destruct (step_assigns _ _ _ _ E1 R) as [A1 C1].
      destruct (IH _ _ _ E2 S) as [A2 C2].
      rewrite assigned_app, length_app, consecutive_app.
      split; [|lia].
      rewrite <- A1, <- C1. f_equal. exact A2. }
  destruct A as [A C]. repeat split; auto.
  - rewrite A. apply consecutive_sorted.
  - rewrite A. apply sorted_lt_NoDup, consecutive_sorted.
Qed.

(** ** The registry *)

Lemma indexOf_absent (x : jsstring) (l : list jsstring) :
  x ∉ l -> indexOf x l = -1.
Proof.
  induction l as [|y l IH]; intros Hx; [reflexivity|].
  apply not_elem_of_cons in Hx as [Hne Hx].
  unfold indexOf; fold indexOf. rewrite decide_False by congruence.
  rewrite (IH Hx). reflexivity.
Qed.

Lemma indexOf_nonneg_or_absent (x : jsstring) (l : list jsstring) :
  indexOf x l = -1 \/ 0 <= indexOf x l.
Proof.
  induction l as [|y l IH]; [left; reflexivity|].
  unfold indexOf; fold indexOf. destruct (decide (y = x)); [right; lia|].
  destruct (indexOf x l <? 0) eqn:E; [left; reflexivity|].
  apply Z.ltb_ge in E. right. lia.
Qed.

Lemma indexOf_present (x : jsstring) (l : list jsstring) :
  x ∈ l ->
  exists l1 l2, l = l1 ++ x :: l2 /\ (x ∉ l1) /\ indexOf x l = Z.of_nat (length l1).
Proof.
  induction l as [|y l IH]; intros Hx; [inversion Hx|].
  unfold indexOf; fold indexOf. destruct (decide (y = x)) as [->|Hne].
  - exists [], l. repeat split. apply not_elem_of_nil.
  - apply elem_of_cons in Hx as [Hx|Hx]; [congruence|].
    destruct (IH Hx) as (l1 & l2 & -> & Hl1 & E).
    exists (y :: l1), l2. repeat split.
    + apply not_elem_of_cons. split; [congruence|exact Hl1].
    + rewrite E. destruct (Z.of_nat (length l1) <? 0) eqn:E'.
      * apply Z.ltb_lt in E'. lia.
      * simpl length. lia.
Qed.

(** What [splice] leaves and what it removes were both in the array. *)
Lemma splice1_sub (start : Z) (l : list jsstring) :
  (fst (splice1 start l) ⊆ l) /\ (snd (splice1 start l) ⊆ l).
Proof.
  unfold splice1. cbn [fst snd]. split.
  - intros x Hx. apply elem_of_app in Hx as [Hx|Hx].
    + eapply subseteq_take, Hx.
    + eapply subseteq_drop, Hx.
  - intros x Hx. eapply subseteq_drop, subseteq_take, Hx.
Qed.

(** The first [disconnect] of a registered encoder removes exactly that
    encoder. *)
Lemma splice1_registered (x : jsstring) (l : list jsstring) :
  x ∈ l -> NoDup l ->
  snd (splice1 (indexOf x l) l) = [x] /\ (x ∉ fst (splice1 (indexOf x l) l)).
Proof.
  intros Hx Hnd. destruct (indexOf_present x l Hx) as (l1 & l2 & -> & Hl1 & E).
  rewrite E. unfold splice1. cbn [fst snd].
  rewrite length_app. cbn [length].
  replace (Z.of_nat (length l1) <? 0) with false by (symmetry; apply Z.ltb_ge; lia).
  rewrite Z.min_l by lia. rewrite Nat2Z.id.
  rewrite take_app_length.
  rewrite (drop_app_length l1 (x :: l2)).
  replace (S (length l1)) with (length (l1 ++ [x]))
    by (rewrite length_app; simpl; lia).
  replace (l1 ++ x :: l2) with ((l1 ++ [x]) ++ l2) by (rewrite <- app_assoc; reflexivity).
  rewrite drop_app_length. split; [reflexivity|].
  apply NoDup_app in Hnd as (_ & _ & Hnd). apply NoDup_cons in Hnd as [Hl2 _].
  intros Hin. apply elem_of_app in Hin as [Hin|Hin]; contradiction.
Qed.

(** A [disconnect] of an encoder that is not registered splices at -1:
    it removes the last entry, which is another encoder's. *)
Lemma splice1_unregistered (x : jsstring) (l : list jsstring) :
  x ∉ l ->
  (x ∉ snd (splice1 (indexOf x l) l)) /\ (x ∉ fst (splice1 (indexOf x l) l)).
Proof.
  intros Hx. destruct (splice1_sub (indexOf x l) l) as [H1 H2].
  split; intros Hin; [apply H2 in Hin|apply H1 in Hin]; contradiction.
Qed.

(** ** After [disconnect] *)

#[local] Opaque splice1 indexOf.

(** Once the encoder is disconnected and out of the registry, no handler
    reconnects or registers it, acknowledges a frame, removes it from the
    registry again, or adds to the frame list. *)
Lemma step_disconnected (w : World) (i : Input) (w' : World) (acts : list Action) :
  step w i = Some (w', acts) ->
  connected w = false ->
  id ∉ encoders w ->
  connected w' = false /\ (id ∉ encoders w') /\
  sent "frame" acts = [] /\ removals id acts = 0%nat /\
  (frames w' = frames w \/ frames w' = []).
Proof.
  intros H C R.
  destruct (splice1_unregistered id (encoders w) R) as [R1 R2].
  destruct i as [e tx].
  destruct e; try destruct tx.
  all: run_handler H.
  all: autorewrite with log; cbn.
  all: try rewrite (bool_decide_eq_false_2 _ R1).
  all: bool_facts; try congruence.
  all: repeat case_decide; try discriminate.
  all: cbn in *.
  all: intuition (subst; auto).
Qed.

Lemma run_disconnected (w : World) (ins : list Input) (w' : World) (acts : list Action) :
  run w ins = Some (w', acts) ->
  connected w = false ->
  id ∉ encoders w ->
  connected w' = false /\ (id ∉ encoders w') /\
  sent "frame" acts = [] /\ removals id acts = 0%nat /\
  (frames w' = frames w \/ frames w' = []).
Proof.
  revert w w' acts. induction ins as [|i ins IH]; intros w w' acts H C R.
  - injection H as <- <-. repeat split; auto.
  - simpl in H.
    destruct (step w i) as [[w1 l1]|] eqn:E1; [|discriminate H].
    destruct (run w1 ins) as [[w2 l2]|] eqn:E2; [|discriminate H].
    injection H as <- <-.
    destruct (step_disconnected _ _ _ _ E1 C R) as (C1 & R1 & S1 & N1 & F1).
    destruct (IH _ _ _ E2 C1 R1) as (C2 & R2 & S2 & N2 & F2).
    rewrite sent_app, removals_app, S1, S2, N1, N2.
    repeat split; auto.
    destruct F2 as [F2|F2]; [rewrite F2; exact F1|right; exact F2].
Qed.

(** A frame write that completes without error on a disconnected encoder
    deletes the file it has just written and registers nothing. *)
Lemma written_after_disconnect (w : World) (k : nat) (n : Z) (f : jsstring) (tx : bool) :
  connected w = false ->
  writes w !! k = Some (FrameWrite n f) ->
  exists w', step w (WriteDone k false, tx) = Some (w', [ADelete f]) /\
             (f ∉ disk w') /\ frames w' = frames w.
Proof.
  intros C W. unfold step. rewrite W.
  unfold exec, frameWritten, deleteNoFail, mbind, M_bind, bind, get, modify, emit.
  cbn. rewrite C. cbn. eexists. split; [reflexivity|].
  cbn. split; [|reflexivity].
  unfold remove_file. set_solver.
Qed.

(** C10: when a registered encoder disconnects, that [disconnect] takes
    it out of the registry, and whatever happens afterwards it is not
    removed a second time (nor registered again), it stays disconnected,
    no frame acknowledgment is sent and the frame list gains nothing;
    every frame write still pending then, when it completes without
    error, deletes the file it has just written and leaves the frame
    list alone. *)
Theorem disconnect_discards_pending (w : World) (tx : bool) (w1 : World)
    (a1 : list Action) (ins : list Input) (w2 : World) (a2 : list Action) :
  id ∈ encoders w ->
  NoDup (encoders w) ->
  step w (Disconnected, tx) = Some (w1, a1) ->
  run w1 ins = Some (w2, a2) ->
  removals id (a1 ++ a2) = 1%nat /\
  (id ∉ encoders w2) /\
  connected w2 = false /\
  sent "frame" (a1 ++ a2) = [] /\
  (frames w2 = frames w1 \/ frames w2 = []) /\
  forall (k : nat) (n : Z) (f : jsstring) (tx' : bool),
    writes w2 !! k = Some (FrameWrite n f) ->
    exists w3, step w2 (WriteDone k false, tx') = Some (w3, [ADelete f]) /\
               (f ∉ disk w3) /\ frames w3 = frames w2.
Proof.
  intros Hin Hnd H1 H2.
  destruct (splice1_registered id (encoders w) Hin Hnd) as [Hrem Hrest].
  unfold step, exec in H1.
  destruct (disconnect_spec w) as (d & fr & files & E & Hfr).
  rewrite E in H1. injection H1 as <- <-.
  destruct (run_disconnected _ _ _ _ H2) as (C2 & R2 & S2 & N2 & F2);
    [reflexivity|exact Hrest|].
  rewrite Hrem. autorewrite with log. cbn.
  rewrite bool_decide_eq_true_2 by (apply list_elem_of_singleton; reflexivity).
  rewrite S2, N2.
  split; [reflexivity|]. split; [exact R2|]. split; [exact C2|].
  split; [reflexivity|]. split; [exact F2|].
  intros k n f tx' W. apply (written_after_disconnect w2 k n f tx' C2 W).
Qed.

#[local] Transparent splice1 indexOf.

(** ** Guards on [name] *)

Lemma in_progress_named (w : World) : in_progress w -> exists n, name w = Some n.
Proof.
  unfold in_progress, phase. destruct (name w) as [n|]; [eauto|].
  intros [H|[H|H]]; discriminate H.
Qed.

(** ** The pipeline *)

(** C4, as amended: the later stages are not conditional on their
    inputs.  When the runner of stage 1 reports done, [mp4fpsmod] is
    started on the session's timestamp path; when that process closes
    with exit code 0, the audio mux is started on the variable-rate video
    and the session's audio path.  Neither step looks at the disk, so it
    makes no difference whether a timestamp file or an audio track was
    supplied. *)
Theorem later_stages_unconditional (w : World) (k : nat) (tx : bool) :
  (forall videoname, procs w !! k = Some (EncodeRunner videoname) ->
   exists w',
     step w (RunnerDone k, tx) =
       Some (w', [ASpawn VfrRemux "mp4fpsmod"
                    [u16 "-o";
                     path_join (frameDir options) (u16 "vfr-" ++ str_of (name w) ++ u16 ".mp4");
                     u16 "-t";
                     path_join (frameDir options) (u16 "ts-" ++ str_of (name w) ++ u16 ".txt");
                     videoname]]) /\
     procs w' = delete k (procs w) ++ [VfrChild]) /\
  (procs w !! k = Some VfrChild ->
   exists w',
     step w (ChildClose k 0, tx) =
       Some (w', [ASpawn AudioMux "ffmpeg"
                    [u16 "-y";
                     u16 "-i";
                     path_join (frameDir options) (u16 "vfr-" ++ str_of (name w) ++ u16 ".mp4");
                     u16 "-i";
                     path_join (frameDir options) (str_of (name w) ++ u16 ".mp3");
                     u16 "-map"; u16 "0:v";
                     u16 "-map"; u16 "1:a";
                     u16 "-shortest";
                     path_join (frameDir options) (u16 "cfr-" ++ str_of (name w) ++ u16 ".mp4")]]) /\
     procs w' = delete k (procs w) ++ [CfrChild]).
Proof.
  split.
  - intros videoname P. unfold step. rewrite P. eexists. split; reflexivity.
  - intros P. unfold step. rewrite P. eexists. split; reflexivity.
Qed.

(** When a runner reports an error (stages 1 and 4), no tool is started,
    the diagnostic goes to the client once, and the session loses its
    name. *)
Lemma runner_error_aborts (w : World) (k : nat) (result : jsstring) (w' : World)
    (acts : list Action) :
  step w (ok (RunnerError k result)) = Some (w', acts) ->
  spawned acts = [] /\ sent "error" acts = [PResult result] /\ name w' = None /\
  procs w' = delete k (procs w).
Proof.
  intros H. unfold ok in H. run_handler H.
  all: autorewrite with log; cbn.
  all: repeat split.
Qed.

(** ** Progress *)

Lemma progress_in_unit (frameNum : Z) (total : nat) :
  0 <= frameNum <= Z.of_nat total -> total <> 0%nat ->
  in_unit_interval (jsdiv frameNum (Z.of_nat total)).
Proof.
  intros [H0 H1] Ht. unfold jsdiv.
  destruct (Z.of_nat total =? 0) eqn:E; [apply Z.eqb_eq in E; lia|].
  apply Z.eqb_neq in E. simpl.
  assert (Hpos : (0 < inject_Z (Z.of_nat total))%Q).
  { unfold Qlt, inject_Z. simpl. lia. }
  split.
  - apply Qle_shift_div_l; [exact Hpos|].
    rewrite Qmult_0_l. unfold Qle, inject_Z. simpl. lia.
  - apply Qle_shift_div_r; [exact Hpos|].
    rewrite Qmult_1_l. unfold Qle, inject_Z. simpl. lia.
Qed.

(** * Further properties of the handlers *)

(** ** [safeName] *)

Lemma replaced_is_fixed (c : N) :
  (fun c => if in_class c then c else underscore)
    (if in_class c then c else underscore) =
  (if in_class c then c else underscore).
Proof. destruct (in_class c) eqn:E; [rewrite E|]; reflexivity. Qed.

(** X1: sanitizing a sanitized name changes nothing. *)
Theorem safeName_idempotent (s : jsstring) : safeName (safeName s) = safeName s.
Proof.
  unfold safeName at 1. unfold substr. rewrite drop_0.
  rewrite take_ge by (rewrite safeName_length; lia).
  unfold safeName, substr. rewrite drop_0, <- list_fmap_compose.
  apply list_fmap_ext. intros _ c _. apply replaced_is_fixed.
Qed.

(** X2: only the first 30 characters count.  [handleStart] sanitizes
    the title followed by "-" and the id, so a title of 30 characters or
    more gives a session name in which the id does not appear. *)
Theorem safeName_ignores_tail (s t : jsstring) :
  (30 <= length s)%nat -> safeName (s ++ t) = safeName s.
Proof.
  intros H. unfold safeName, substr. rewrite !drop_0.
  rewrite take_app_le by exact H. reflexivity.
Qed.

(** ** [handleStart] *)

(** X3: without --allow-arbitrary-ffmpeg-argumments, a [start] that
    carries [ffmpegArguments] does not start a session: when the error
    message is delivered, the client gets that one message, [name] stays
    unset, and the counters, the frame list, the pending writes, the
    running tools and the disk are as before.  The frame rate, the
    extension and the codec of the message have been stored all the
    same. *)
Theorem start_arguments_rejected (w : World) (d : StartData) (args : list jsstring) :
  name w = None ->
  allowArbitraryFfmpegArguments options = false ->
  d_ffmpegArguments d = Some args ->
  exists w',
    step w (ok (CmdStart (Some d))) =
      Some (w', [ASend "error"
                   (PMsg "ffmpegArguments not allowed without --allow-arbitrary-ffmpeg-argumments command line option")
                   true]) /\
    name w' = None /\ count w' = count w /\ frames w' = frames w /\
    ended w' = ended w /\ numWriting w' = numWriting w /\
    ffmpegArguments w' = ffmpegArguments w /\
    writes w' = writes w /\ procs w' = procs w /\ disk w' = disk w /\
    framerate w' = or_num (d_framerate d) 30 /\
    extension w' = safeName (or_str (d_extension d) (u16 ".mp4")) /\
    codec w' = d_codec d.
Proof.
  intros Hn Ha Hd.
  unfold step, ok, exec, handleStart, sendCmd, mbind, M_bind, bind, get, modify.
  rewrite Hn, Ha. cbn. rewrite Hd. cbn.
  rewrite send_delivered. eexists. split; [reflexivity|].
  cbn. rewrite Hn. repeat split.
Qed.

(** ** The end of the pipeline *)

(** X4: when [server.addFile] resolves and the [end] message is
    delivered, the client gets that one message with the file
    information, no tool is started, and [name] stays set: the session
    is not reset, so a [start] that comes next is rejected as already in
    progress and, its error delivered, changes nothing. *)
Theorem pipeline_success_keeps_name (w : World) (k : nat) (path n info : jsstring) :
  procs w !! k = Some (AddFilePromise path) ->
  name w = Some n ->
  exists w' acts,
    step w (ok (AddFileDone k (Some info))) = Some (w', acts) /\
    sent "end" acts = [PFileInfo info] /\
    sent "error" acts = [] /\
    spawned acts = [] /\
    name w' = Some n /\
    procs w' = delete k (procs w) /\
    forall data,
      step w' (ok (CmdStart data)) =
        Some (w', [ASend "error" (PText "video already in progress") true]).
Proof.
  intros Hp Hn. unfold step at 1. unfold ok at 1. rewrite Hp.
  unfold exec, fileAdded, sendCmd, mbind, M_bind, bind.
  rewrite send_delivered.
  destruct (cleanup_spec (set_procs (delete k (procs w)) w)) as (d & fr & files & E & _).
  rewrite E. eexists _, _. split; [reflexivity|].
  autorewrite with log. cbn.
  repeat split; auto.
  intros data.
  unfold step, ok, exec, handleStart, sendCmd, mbind, M_bind, bind, get.
  cbn. rewrite Hn. rewrite send_delivered. reflexivity.
Qed.

(** ** [handleFFMpegFrame] *)

(** X5: while the frame number a runner reports is between 0 and the
    number of registered frames, and there is at least one, the progress
    sent is a number between 0 and 1; when the message is delivered,
    nothing else happens. *)
Theorem progress_normalised (w : World) (k : nat) (frameNum : Z) :
  (exists videoname, procs w !! k = Some (EncodeRunner videoname)) \/
  procs w !! k = Some OverlayRunner ->
  0 <= frameNum <= Z.of_nat (length (frames w)) ->
  frames w <> [] ->
  exists v,
    step w (ok (RunnerFrame k frameNum)) =
      Some (w, [ASend "progress" (PProgress v) true]) /\
    in_unit_interval v.
Proof.
  intros Hp Hn Hf.
  exists (jsdiv frameNum (Z.of_nat (length (frames w)))). split.
  - unfold step, ok.
    destruct Hp as [[v Hp]|Hp]; rewrite Hp;
      unfold exec, handleFFMpegFrame, sendCmd, mbind, M_bind, bind, get;
      rewrite send_delivered; reflexivity.
  - apply progress_in_unit; [exact Hn|].
    destruct (frames w); [contradiction|discriminate].
Qed.

(** ** The callback of a frame write *)

(** X6: a frame write that fails is lost: the counter of writes in
    flight goes down by one and the error counter up by one, the frame
    list, the disk and the next index are untouched, and the client is
    told nothing about the frame. *)
Theorem failed_write_is_lost (w : World) (k : nat) (n : Z) (f : jsstring) (tx : bool)
    (w' : World) (acts : list Action) :
  writes w !! k = Some (FrameWrite n f) ->
  step w (WriteDone k true, tx) = Some (w', acts) ->
  numWriting w' = numWriting w - 1 /\
  numErrors w' = numErrors w + 1 /\
  frames w' = frames w /\
  disk w' = disk w /\
  count w' = count w /\
  writes w' = delete k (writes w) /\
  sent "frame" acts = [] /\
  sent "error" acts = [].
Proof.
  intros Hw H. unfold step in H. rewrite Hw in H.
  run_handler H.
  all: autorewrite with log; cbn.
  all: repeat split.
Qed.

(** X7: a frame write that succeeds on a connected encoder puts its
    file at the end of the frame list, whatever index the frame has, and
    acknowledges the frame under the index it was given at receipt. *)
Theorem written_frame_is_registered (w : World) (k : nat) (n : Z) (f : jsstring)
    (w' : World) (acts : list Action) :
  writes w !! k = Some (FrameWrite n f) ->
  connected w = true ->
  step w (ok (WriteDone k false)) = Some (w', acts) ->
  frames w' = frames w ++ [f] /\
  sent "frame" acts = [PFrameNum n] /\
  (f ∈ disk w') /\
  numWriting w' = numWriting w - 1 /\
  numErrors w' = numErrors w /\
  count w' = count w /\
  writes w' = delete k (writes w).
Proof.
  intros Hw Hc H. unfold step, ok in H. rewrite Hw in H.
  unfold exec, frameWritten, mbind, M_bind, bind, get, modify in H.
  cbn in H. rewrite Hc in H. cbn in H.
  run_handler H.
  all: autorewrite with log; cbn.
  all: repeat case_decide; try congruence.
  all: repeat split; try reflexivity.
  all: unfold add_file; set_solver.
Qed.

(** ** The counter of writes in flight *)

Lemma frame_writes_delete (l : list Pending) (k : nat) (p : Pending) :
  l !! k = Some p ->
  Z.of_nat (length (List.filter is_frame_write (delete k l))) =
  Z.of_nat (length (List.filter is_frame_write l)) - (if is_frame_write p then 1 else 0).
Proof.
  revert k. induction l as [|q l IH]; intros k H; [discriminate H|].
  destruct k as [|k].
  - injection H as ->. simpl.
    destruct (is_frame_write p); simpl length; lia.
  - specialize (IH k H). simpl.
    change (list_delete k l) with (delete k l).
    destruct (is_frame_write q); simpl length; lia.
Qed.

Lemma frame_writes_snoc (l : list Pending) (p : Pending) :
  Z.of_nat (length (List.filter is_frame_write (l ++ [p]))) =
  Z.of_nat (length (List.filter is_frame_write l)) + (if is_frame_write p then 1 else 0).
Proof.
  rewrite List.filter_app, length_app. simpl.
  destruct (is_frame_write p); simpl; lia.
Qed.

(** Every handler moves [numWriting] and the number of pending frame
    writes together. *)
Lemma step_keeps_counter (w : World) (i : Input) (w' : World) (acts : list Action) :
  step w i = Some (w', acts) ->
  numWriting w' - pending_frames w' = numWriting w - pending_frames w.
Proof.
  intros H. destruct i as [e tx]. unfold pending_frames.
  destruct e; try destruct tx.
  all: run_handler H.
  all: cbn.
  all: rewrite ?frame_writes_snoc; cbn; try lia.
  all: match goal with
       | E : writes _ !! _ = Some _ |- _ => rewrite (frame_writes_delete _ _ _ E)
       end; cbn; lia.
Qed.

(** X8: on every connection, after any inputs, [numWriting] is the
    number of frame writes whose callback has not run yet; it is never
    negative, and it is zero exactly when no frame write is pending. *)
Theorem counter_counts_pending_writes (registry : list jsstring) (ins : list Input)
    (w : World) (acts : list Action) :
  run (connect registry) ins = Some (w, acts) ->
  numWriting w = pending_frames w /\
  0 <= numWriting w /\
  (numWriting w = 0 <-> List.filter is_frame_write (writes w) = []).
Proof.
  intros H.
  assert (I : numWriting w - pending_frames w = 0).
  { assert (I0 : numWriting (connect registry) - pending_frames (connect registry) = 0)
      by reflexivity.
    revert H I0. generalize (connect registry). revert w acts.
    induction ins as [|i ins IH]; intros w acts w0 H I0.
    - injection H as <- <-. exact I0.
    - simpl in H.
      destruct (step w0 i) as [[w1 l1]|] eqn:E1; [|discriminate H].
      destruct (run w1 ins) as [[w2 l2]|] eqn:E2; [|discriminate H].
      injection H as <- <-.
      apply (IH _ _ _ E2). rewrite (step_keeps_counter _ _ _ _ E1). exact I0. }
  unfold pending_frames in *.
  split; [lia|]. split; [lia|].
  split; intros E.
  - apply length_zero_iff_nil. lia.
  - rewrite E in I. simpl in I. lia.
Qed.

(** ** [cleanup] *)

Lemma forEach_deleteNoFail_exact (files : list jsstring) (w : World) :
  forEach deleteNoFail files w =
    (tt, set_disk (disk w ∖ list_to_set files) w, map ADelete files).
Proof.
  revert w. induction files as [|f files IH]; intros w.
  - simpl. unfold skip, ret. rewrite difference_empty_L, set_disk_same. reflexivity.
  - simpl. unfold mbind, M_bind, bind at 1.
    unfold deleteNoFail at 1, mbind, M_bind, bind, modify, emit.
    rewrite IH.
    assert (Ed : remove_file f (disk w) ∖ list_to_set files =
                 disk w ∖ ({[f]} ∪ list_to_set files))
      by (unfold remove_file; set_solver).
    change (disk (set_disk (remove_file f (disk w)) w)) with (remove_file f (disk w)).
    rewrite Ed. reflexivity.
Qed.

Lemma remove_five (d : gset jsstring) (l : list jsstring) (p1 p2 p3 p4 p5 : jsstring) :
  remove_file p5 (remove_file p4 (remove_file p3 (remove_file p2
    (remove_file p1 (d ∖ list_to_set l))))) =
  d ∖ list_to_set (l ++ [p1; p2; p3; p4; p5]).
Proof. unfold remove_file. rewrite list_to_set_app_L. set_solver. Qed.

Lemma remove_five_only (d : gset jsstring) (p1 p2 p3 p4 p5 : jsstring) :
  remove_file p5 (remove_file p4 (remove_file p3 (remove_file p2 (remove_file p1 d)))) =
  d ∖ list_to_set [p1; p2; p3; p4; p5].
Proof. unfold remove_file. set_solver. Qed.

Ltac run_cleanup :=
  unfold deleteNoFail, mbind, M_bind, bind, modify, emit, skip, ret;
  cbn beta iota;
  cbn [disk name frames set_disk set_frames app map].

(** [cleanup] in closed form. *)
Lemma cleanup_exact (w : World) :
  exec cleanup w =
    (set_disk (disk w ∖ list_to_set (doomed w))
       (set_frames (if keepFrames options then frames w else []) w),
     map ADelete (doomed w)).
Proof.
  unfold exec, cleanup, doomed, intermediates, mbind, M_bind, bind, get.
  pose proof (set_frames_same w) as Es.
  destruct (frames w) as [|f fs] eqn:Ef; cbn [length Nat.eqb negb].
  - run_cleanup. rewrite remove_five_only.
    destruct (keepFrames options); rewrite Es; reflexivity.
  - destruct (keepFrames options); cbn [negb].
    + run_cleanup. rewrite remove_five_only, Es. reflexivity.
    + rewrite forEach_deleteNoFail_exact. run_cleanup.
      rewrite remove_five, app_nil_r, map_app. reflexivity.
Qed.


(** X9: [cleanup] deletes the registered frames (unless frames are
    kept) and the five paths under [videoDir], and no other file; it
    creates none; it empties the frame list unless frames are kept; and
    it changes no other variable of the encoder. *)
Theorem cleanup_effect (w : World) :
  exists w',
    exec cleanup w = (w', map ADelete (doomed w)) /\
    (forall p, p ∈ disk w' <-> p ∈ disk w /\ p ∉ doomed w) /\
    frames w' = (if keepFrames options then frames w else []) /\
    set_frames (frames w) (set_disk (disk w) w') = w.
Proof.
  eexists. split; [apply cleanup_exact|].
  split; [|split].
  - intros p. cbn [disk set_disk]. rewrite elem_of_difference, elem_of_list_to_set.
    reflexivity.
  - reflexivity.
  - destruct w; reflexivity.
Qed.

(** X10: running [cleanup] a second time changes nothing: what it
    would delete is already gone. *)
Theorem cleanup_twice (w : World) :
  fst (exec cleanup (fst (exec cleanup w))) = fst (exec cleanup w).
Proof.
  rewrite (cleanup_exact w). cbn [fst]. rewrite cleanup_exact. cbn [fst].
  set (w1 := set_disk (disk w ∖ list_to_set (doomed w))
               (set_frames (if keepFrames options then frames w else []) w)).
  assert (Ed : disk w1 ∖ list_to_set (doomed w1) = disk w1).
  { assert (Hsub : forall p, p ∈ doomed w1 -> p ∈ doomed w).
    { intros p. unfold doomed, intermediates. subst w1. cbn [frames name set_disk set_frames].
      destruct (keepFrames options); set_solver. }
    subst w1. cbn [disk set_disk]. set_solver. }
  rewrite Ed.
  assert (Ef : (if keepFrames options then frames w1 else []) = frames w1).
  { subst w1. cbn [frames set_disk set_frames]. destruct (keepFrames options); reflexivity. }
  rewrite Ef. destruct w1; reflexivity.
Qed.

(** ** [disconnect] and the constructor *)

Lemma splice1_last (l : list jsstring) :
  splice1 (-1) l = (take (length l - 1) l, drop (length l - 1) l).
Proof.
  unfold splice1. cbn [Z.ltb Z.compare].
  destruct l as [|x l] using rev_ind; [reflexivity|].
  rewrite length_app. cbn [length].
  replace (Z.to_nat ((Z.of_nat (length l + 1) + -1) `max` 0)) with (length l) by lia.
  replace (length l + 1 - 1)%nat with (length l) by lia.
  rewrite take_app_length, drop_app_length.
  replace (S (length l)) with (length (l ++ [x])) by (rewrite length_app; simpl; lia).
  rewrite drop_all, app_nil_r. reflexivity.
Qed.

(** X11: a [disconnect] of an encoder that is not in the registry
    (a second disconnect, say) splices at index -1: it takes the last
    entry out of the registry, which belongs to another encoder. *)
Theorem disconnect_unregistered_removes_last (w : World) (tx : bool) (w' : World)
    (acts : list Action) :
  id ∉ encoders w ->
  step w (Disconnected, tx) = Some (w', acts) ->
  encoders w' = take (length (encoders w) - 1) (encoders w) /\
  In (ASplice (-1) (drop (length (encoders w) - 1) (encoders w))) acts /\
  connected w' = false.
Proof.
  intros Hid H. unfold step, exec in H.
  destruct (disconnect_spec w) as (d & fr & files & E & _).
  rewrite (indexOf_absent _ _ Hid), splice1_last in E. cbn [fst snd] in E.
  rewrite E in H. injection H as <- <-.
  repeat split. left. reflexivity.
Qed.

(** X12: when the greeting cannot be sent, the constructor disconnects
    before it registers the encoder: the last entry of the registry,
    another encoder's, is removed, and the new encoder is registered
    although it is disconnected. *)
Theorem failed_greeting_corrupts_registry (files : gset jsstring) (registry : list jsstring) :
  id ∉ registry ->
  connected (fst (exec (construct false) (fresh files registry))) = false /\
  encoders (fst (exec (construct false) (fresh files registry))) =
    take (length registry - 1) registry ++ [id].
Proof.
  intros Hid.
  unfold exec, construct, sendCmd, mbind, M_bind, bind, modify.
  destruct (send_failed "start" PEmpty (fresh files registry)) as (d & fr & fl & E & _).
  change (encoders (fresh files registry)) with registry in E.
  rewrite (indexOf_absent _ _ Hid), splice1_last in E. cbn [fst snd] in E.
  rewrite E. split; reflexivity.
Qed.

(** ** Frame files *)

Lemma u16_inj (s t : string) : u16 s = u16 t -> s = t.
Proof.
  unfold u16. intros H.
  assert (Hl : list_ascii_of_string s = list_ascii_of_string t).
  { revert H. generalize (list_ascii_of_string s) (list_ascii_of_string t).
    induction l as [|a l IH]; intros [|b l'] H; try discriminate H; [reflexivity|].
    injection H as Hab Hl. f_equal; [|apply IH, Hl].
    rewrite <- (ascii_N_embedding a), <- (ascii_N_embedding b), Hab. reflexivity. }
  rewrite <- (string_of_list_ascii_of_string s), <- (string_of_list_ascii_of_string t), Hl.
  reflexivity.
Qed.

(** Within one session name, different indices give different files. *)
Lemma frame_path_inj (n : jsstring) (a b : Z) :
  frame_path n a = frame_path n b -> a = b.
Proof.
  unfold frame_path, path_join, num_to_string. intros H.
  do 4 apply app_inv_head in H. apply app_inv_tail in H.
  apply u16_inj in H. apply (inj pretty) in H. exact H.
Qed.

Lemma frame_files_nil : frame_files [] = [].
Proof. reflexivity. Qed.

Lemma frame_files_cons (a : Action) (l : list Action) :
  frame_files (a :: l) =
  match a with
  | AWriteFile (FrameWrite _ f) => f :: frame_files l
  | _ => frame_files l
  end.
Proof. destruct a as [| [] | | | | |]; reflexivity. Qed.

Lemma frame_files_app (l1 l2 : list Action) :
  frame_files (l1 ++ l2) = frame_files l1 ++ frame_files l2.
Proof. apply omap_app. Qed.

Lemma frame_files_deletes (files : list jsstring) :
  frame_files (map ADelete files) = [].
Proof. induction files; simpl; auto. Qed.

#[local] Hint Rewrite frame_files_nil frame_files_cons frame_files_app
  frame_files_deletes : log.
#[local] Arguments frame_files : simpl never.
#[local] Arguments frame_path : simpl never.

(** A handler writes a frame only under the current session name, and
    without a restart the name can only be lost. *)
Lemma step_frame_files (w : World) (i : Input) (w' : World) (acts : list Action) :
  step w i = Some (w', acts) ->
  restarts w i = false ->
  (name w' = name w \/ name w' = None) /\
  frame_files acts = map (frame_path (default [] (name w))) (assigned acts) /\
  (name w = None -> assigned acts = []).
Proof.
  intros H R. destruct i as [e tx]. unfold restarts in R.
  destruct e; cbn [fst] in R; try destruct tx.
  all: run_handler H.
  all: autorewrite with log; cbn.
  all: try discriminate R.
  all: repeat split; auto; try discriminate.
Qed.

Lemma run_frame_files (w : World) (ins : list Input) (w' : World) (acts : list Action) :
  run w ins = Some (w', acts) ->
  one_session w ins = true ->
  frame_files acts = map (frame_path (default [] (name w))) (assigned acts) /\
  (name w = None -> assigned acts = []).
Proof.
  revert w w' acts. induction ins as [|i ins IH]; intros w w' acts H S.
  - injection H as <- <-. split; reflexivity.
  - simpl in H, S. apply andb_prop in S as [R S]. apply negb_true_iff in R.
    destruct (step w i) as [[w1 l1]|] eqn:E1; [|discriminate H].
    destruct (run w1 ins) as [[w2 l2]|] eqn:E2; [|discriminate H].
    injection H as <- <-.
    destruct (step_frame_files _ _ _ _ E1 R) as (N1 & F1 & Z1).
    destruct (IH _ _ _ E2 S) as (F2 & Z2).
    rewrite frame_files_app, assigned_app, map_app, F1, F2.
    destruct N1 as [N1|N1].
    + rewrite N1. split; [reflexivity|].
      intros Hn. rewrite (Z1 Hn), Z2; [reflexivity|congruence].
    + rewrite (Z2 N1). split; [reflexivity|].
      intros Hn. rewrite (Z1 Hn). reflexivity.
Qed.

Lemma run_assigns (w : World) (ins : list Input) (w' : World) (acts : list Action) :
  run w ins = Some (w', acts) ->
  one_session w ins = true ->
  assigned acts = consecutive (count w) (length (assigned acts)) /\
  count w' = count w + Z.of_nat (length (assigned acts)).
Proof.
  revert w w' acts. induction ins as [|i ins IH]; intros w w' acts H S.
  - injection H as <- <-. split; [reflexivity|simpl; lia].
  - simpl in H, S. apply andb_prop in S as [R S]. apply negb_true_iff in R.
    destruct (step w i) as [[w1 l1]|] eqn:E1; [|discriminate H].
    destruct (run w1 ins) as [[w2 l2]|] eqn:E2; [|discriminate H].
    injection H as <- <-.
    destruct (step_assigns _ _ _ _ E1 R) as [A1 C1].
    destruct (IH _ _ _ E2 S) as [A2 C2].
    rewrite assigned_app, length_app, consecutive_app.
    split; [|lia].
    rewrite <- A1, <- C1. f_equal. exact A2.
Qed.

(** X13: within one session no two accepted frames are written to the
    same file: the files of the frame writes started along a run that
    does not restart are pairwise different, and each is the session's
    frame path for the index the frame was given. *)
Theorem frame_files_distinct (w : World) (ins : list Input) (w' : World)
    (acts : list Action) :
  run w ins = Some (w', acts) ->
  one_session w ins = true ->
  NoDup (frame_files acts) /\
  frame_files acts = map (frame_path (default [] (name w))) (assigned acts).
Proof.
  intros H S.
  destruct (run_frame_files _ _ _ _ H S) as [F _].
  destruct (run_assigns _ _ _ _ H S) as [A _].
  split; [|exact F].
  rewrite F. apply NoDup_fmap_2.
  - intros a b. apply frame_path_inj.
  - rewrite A. apply sorted_lt_NoDup, consecutive_sorted.
Qed.

(** ** An accepted [start] *)

(** X14: a [start] that is accepted (no session name is set, and the
    message carries no [ffmpegArguments] or they are allowed) sends
    nothing to the client.  It leaves the session Capturing with index 0,
    an empty frame list and a sanitized name of at most 30 characters;
    [numWriting] and the writes still pending from an earlier capture
    are kept. *)
Theorem start_accepted_silently (w : World) (d : StartData) :
  name w = None ->
  allowArbitraryFfmpegArguments options = true \/ d_ffmpegArguments d = None ->
  exists w',
    step w (ok (CmdStart (Some d))) = Some (w', []) /\
    phase w' = Capturing /\
    name w' = Some (safeName (or_str (d_name d) (u16 "untitled") ++ u16 "-" ++ id)) /\
    count w' = 0 /\ frames w' = [] /\ numErrors w' = 0 /\
    numWriting w' = numWriting w /\ writes w' = writes w /\
    procs w' = procs w /\ disk w' = disk w /\ connected w' = connected w.
Proof.
  intros Hn Ha.
  unfold step, ok, exec, handleStart, sendCmd, mbind, M_bind, bind, get, modify.
  rewrite Hn. cbn.
  destruct (allowArbitraryFfmpegArguments options) eqn:Eo.
  - eexists. split; [reflexivity|]. unfold phase. cbn. repeat split.
  - destruct Ha as [Ha|Ha]; [discriminate Ha|]. rewrite Ha. cbn.
    eexists. split; [reflexivity|]. unfold phase. cbn. repeat split.
Qed.

(** ** Uploads before [start] *)

Lemma hyphen_survives (s : jsstring) :
  (45%N ∈ take 30 s) -> 45%N ∈ safeName s.
Proof.
  intros H. unfold safeName, substr. rewrite drop_0.
  apply (list_elem_of_fmap_2 (fun c => if in_class c then c else underscore)) in H.
  exact H.
Qed.

(** The name an accepted [start] sets is never the text "undefined". *)
Lemma session_name_not_undefined (t i : jsstring) :
  t <> [] -> safeName (t ++ u16 "-" ++ i) <> u16 "undefined".
Proof.
  intros Ht E.
  assert (Hl : length (safeName (t ++ u16 "-" ++ i)) = 9%nat) by (rewrite E; reflexivity).
  rewrite safeName_length, !length_app in Hl. change (length (u16 "-")) with 1%nat in Hl.
  assert (Hin : 45%N ∈ safeName (t ++ u16 "-" ++ i)).
  { apply hyphen_survives. rewrite take_ge by (rewrite !length_app; simpl; lia).
    apply elem_of_app. right. apply elem_of_app. left.
    apply list_elem_of_singleton. reflexivity. }
  rewrite E in Hin.
  assert (Hd : bool_decide (45%N ∈ u16 "undefined") = false) by (vm_compute; reflexivity).
  apply bool_decide_eq_false in Hd. contradiction.
Qed.

Lemma or_str_nonempty (x : option jsstring) (d : jsstring) :
  d <> [] -> or_str x d <> [].
Proof. intros Hd. destruct x as [[|c s]|]; simpl; auto; discriminate. Qed.

(** X15: [handleTimestamps] has no guard on [name]: timestamps that
    arrive before [start] are written, without any error, to the file
    named after the text "undefined"; and that is never the timestamp
    file of the session a later [start] opens, so they do not reach its
    pipeline. *)
Theorem early_timestamps_miss_session (w : World) (ts : jsstring)
    (data : option StartData) (w1 : World) (acts1 : list Action) (n : jsstring) :
  name w = None ->
  step w (ok (CmdStart data)) = Some (w1, acts1) ->
  name w1 = Some n ->
  step w (ok (CmdTimestamps ts)) =
    Some (set_writes (writes w ++ [PlainWrite (ts_path None)]) w,
          [AWriteFile (PlainWrite (ts_path None))]) /\
  ts_path None = path_join (frameDir options) (u16 "ts-undefined.txt") /\
  ts_path (Some n) <> ts_path None.
Proof.
  intros Hn H1 Hn1. split; [|split].
  - unfold step, ok, exec, handleTimestamps, mbind, M_bind, bind, get, modify, emit, ts_path.
    rewrite Hn. reflexivity.
  - reflexivity.
  - assert (Hne : n <> u16 "undefined").
    { unfold ok in H1. run_handler H1.
      all: cbn in Hn1; try congruence.
      all: injection Hn1 as <-.
      all: apply session_name_not_undefined, or_str_nonempty; discriminate. }
    unfold ts_path, path_join, str_of. cbn [default].
    intros E. do 3 apply app_inv_head in E. apply app_inv_tail in E.
    contradiction.
Qed.

(** ** The guards on [name], for both outcomes of [client.send] *)

Lemma cleanup_run (w : World) :
  cleanup w =
    (tt,
     set_disk (disk w ∖ list_to_set (doomed w))
       (set_frames (if keepFrames options then frames w else []) w),
     map ADelete (doomed w)).
Proof.
  pose proof (cleanup_exact w) as E. unfold exec in E.
  destruct (cleanup w) as [[[] w1] l1]. injection E as -> ->. reflexivity.
Qed.

(** [send] when [client.send] throws, in closed form. *)
Lemma send_failed_exact (cmd : string) (data : Payload) (w : World) :
  send false cmd data w =
    (tt,
     set_disk (disk w ∖ list_to_set (doomed w))
       (set_frames (if keepFrames options then frames w else [])
          (set_encoders (fst (splice1 (indexOf id (encoders w)) (encoders w)))
             (set_connected false w))),
     ASend cmd data false
       :: ASplice (indexOf id (encoders w))
                  (snd (splice1 (indexOf id (encoders w)) (encoders w)))
       :: map ADelete (doomed w) ++ [AClose]).
Proof.
  unfold send, disconnect, mbind, M_bind, bind, get, modify, emit.
  cbn beta iota. cbn [encoders set_connected].
  destruct (splice1 (indexOf id (encoders w)) (encoders w)) as [rest removed].
  cbn beta iota. rewrite cleanup_run. reflexivity.
Qed.

(** C8, as amended: while a session is Capturing, Ending or Assembling,
    a [start] message is answered with the one error "video already in
    progress", starts nothing, and leaves [name], [count],
    [framerate], [extension], [codec], [ended] and [numWriting] as they
    were.  When the error is delivered the whole world is unchanged, the
    frame list included.  When [client.send] throws, [send] disconnects
    the encoder, and [cleanup] empties the frame list unless frames are
    kept. *)
Theorem start_rejected_in_progress (w : World) (data : option StartData) (tx : bool)
    (w' : World) (acts : list Action) :
  in_progress w ->
  step w (CmdStart data, tx) = Some (w', acts) ->
  sent "error" acts = [PText "video already in progress"] /\
  spawned acts = [] /\ assigned acts = [] /\
  name w' = name w /\ count w' = count w /\ framerate w' = framerate w /\
  extension w' = extension w /\ codec w' = codec w /\ ended w' = ended w /\
  numWriting w' = numWriting w /\
  (tx = true ->
   w' = w /\ acts = [ASend "error" (PText "video already in progress") true]) /\
  (tx = false ->
   connected w' = false /\
   frames w' = (if keepFrames options then frames w else [])).
Proof.
  intros P H. destruct (in_progress_named w P) as [n E].
  unfold step, exec, handleStart, sendCmd, mbind, M_bind, bind, get in H.
  rewrite E in H. destruct tx.
  - rewrite send_delivered in H. injection H as <- <-.
    repeat split; auto; try congruence.
  - rewrite send_failed_exact in H. injection H as <- <-.
    autorewrite with log. cbn.
    repeat split; auto; try congruence.
Qed.

(** C7, as amended: [handleFrame] is guarded by [name] alone.  When no
    name is set (the phase is Idle) the answer is the one error "video
    not started"; no index is assigned, no write and no tool is started,
    and [name], [count], [numWriting], [ended], the pending writes and
    the running tools are as before; when the error is delivered the
    whole world is unchanged, and when [client.send] throws the encoder
    is disconnected and cleaned up.  In every other phase, Ending,
    Assembling and Done included, no error is sent, whatever
    [client.send] would do: a payload with the expected header gets the
    next index, raises [numWriting] and starts a write, and any other
    payload is dropped without a trace. *)
Theorem frame_guard_is_name (w : World) (dataURL : jsstring) (tx : bool) (w' : World)
    (acts : list Action) :
  step w (CmdFrame dataURL, tx) = Some (w', acts) ->
  (phase w = Idle ->
   sent "error" acts = [PText "video not started"] /\
   assigned acts = [] /\ spawned acts = [] /\
   name w' = None /\ count w' = count w /\ numWriting w' = numWriting w /\
   ended w' = ended w /\ writes w' = writes w /\ procs w' = procs w /\
   (tx = true ->
    w' = w /\ acts = [ASend "error" (PText "video not started") true]) /\
   (tx = false ->
    connected w' = false /\
    frames w' = (if keepFrames options then frames w else []))) /\
  (phase w <> Idle ->
   sent "error" acts = [] /\
   if bool_decide (substr dataURL 0 (length EXPECTED_HEADER) = EXPECTED_HEADER)
   then count w' = count w + 1 /\ numWriting w' = numWriting w + 1 /\
        ended w' = ended w /\ name w' = name w /\
        exists filename,
          writes w' = writes w ++ [FrameWrite (count w) filename] /\
          acts = [AWriteFile (FrameWrite (count w) filename)]
   else w' = w /\ acts = []).
Proof.
  intros H. unfold phase.
  unfold step, exec, handleFrame, sendCmd, mbind, M_bind, bind, get,
    modify, emit, skip, ret in H.
  destruct (name w) as [n|] eqn:E.
  - split; [destruct (negb (ended w)), (negb (numWriting w =? 0)), (procs w);
            intros D; discriminate D|].
    intros _.
    destruct (bool_decide (substr dataURL 0 (length EXPECTED_HEADER) = EXPECTED_HEADER));
      cbn in H; injection H as <- <-.
    + split; [reflexivity|]. cbn. rewrite E. repeat split. eauto.
    + split; [reflexivity|]. split; reflexivity.
  - split; [|intros D; contradiction D; reflexivity].
    intros _. destruct tx.
    + rewrite send_delivered in H. injection H as <- <-.
      repeat split; auto; try congruence.
    + rewrite send_failed_exact in H. injection H as <- <-.
      autorewrite with log. cbn.
      repeat split; auto; try congruence.
Qed.

End VideoEncoder.

(** * Examples on concrete inputs *)

(** C6: the title "a b" is sanitized to "a_b", whose middle character is
    not in the class [[0-9A-Za-z-.]]. *)
Lemma safeName_leaves_class :
  safeName (u16 "a b") = u16 "a_b" /\
  ~ Forall (fun c => in_class c = true) (safeName (u16 "a b")).
Proof.
  split; [reflexivity|].
  intros H. apply Forall_lookup_1 with (i := 1%nat) (x := underscore) in H.
  - discriminate H.
  - reflexivity.
Qed.

(** The model at the concrete options, with the identity for
    [toUpperCase] and no overlay filter (no example sends a [meta]
    message). *)
Notation run1 := (run demo_id one_dir no_upper no_filter).
Notation step1 := (step demo_id one_dir no_upper no_filter).
Notation connect1 := (connect demo_id one_dir).
Notation after1 := (world_after demo_id one_dir no_upper no_filter).
Notation run2 := (run demo_id split_dirs no_upper no_filter).
Notation connect2 := (connect demo_id split_dirs).
Notation run3 := (run demo_id keeping no_upper no_filter).
Notation connect3 := (connect demo_id keeping).

(** Evaluate both sides of every equation of a conjunction. *)
Ltac by_eval :=
  repeat match goal with |- _ /\ _ => split end;
  vm_compute; reflexivity.



(** The theorem of C5 on a started session that takes three frames whose
    writes complete out of order, the second one with an error. *)
Lemma frame_indices_consecutive_witness :
  exists w' acts,
    run1 (after1 [ok (CmdStart None)])
      [ok (CmdFrame demo_frame); ok (CmdFrame demo_frame);
       ok (WriteDone 1 true); ok (CmdFrame demo_frame);
       ok (WriteDone 1 false); ok (WriteDone 0 false)] = Some (w', acts) /\
    assigned acts = [0; 1; 2] /\
    (assigned acts =
       consecutive (count (after1 [ok (CmdStart None)])) (length (assigned acts)) /\
     count w' =
       count (after1 [ok (CmdStart None)]) + Z.of_nat (length (assigned acts)) /\
     StronglySorted Z.lt (assigned acts) /\
     NoDup (assigned acts)).
Proof.
  eexists _, _. split; [vm_compute; reflexivity|].
  split; [vm_compute; reflexivity|].
  apply (frame_indices_consecutive demo_id one_dir no_upper no_filter
           (after1 [ok (CmdStart None)])
           [ok (CmdFrame demo_frame); ok (CmdFrame demo_frame);
            ok (WriteDone 1 true); ok (CmdFrame demo_frame);
            ok (WriteDone 1 false); ok (WriteDone 0 false)]).
  - vm_compute. reflexivity.
  - vm_compute. reflexivity.
Defined.

(** C2: the first stage succeeds and [mp4fpsmod] then closes with exit
    code 1.  The handler starts the audio mux all the same, and the run
    sends no error message. *)
Lemma remux_failure_goes_unnoticed :
  exists w acts,
    run1 (connect1 [])
      [ok (CmdStart None); ok (CmdFrame demo_frame); ok (WriteDone 0 false);
       ok CmdEnd; ok (RunnerDone 0); ok (ChildClose 0 1)] = Some (w, acts) /\
    spawned acts = [Encode; VfrRemux; AudioMux] /\
    sent "error" acts = [] /\
    procs w = [CfrChild].
Proof.
  eexists _, _. split; [vm_compute; reflexivity|].
  by_eval.
Qed.

(** C3: frames and videos are kept in different directories, the client
    uploads timestamps, and the first stage fails.  The error reaches
    the client and [cleanup] deletes [videos/ts-untitled-7.txt], but the
    timestamp file was written to [frames/ts-untitled-7.txt] and is
    still on disk. *)
Lemma timestamp_file_survives_failure :
  exists w acts,
    run2 (connect2 [])
      [ok (CmdStart None); ok (CmdTimestamps (u16 "0 33 66")); ok (WriteDone 0 false);
       ok CmdEnd; ok (RunnerError 0 (u16 "boom"))] = Some (w, acts) /\
    sent "error" acts = [PResult (u16 "boom")] /\
    In (ADelete (u16 "videos/ts-untitled-7.txt")) acts /\
    u16 "frames/ts-untitled-7.txt" ∈ disk w.
Proof.
  eexists _, _. split; [vm_compute; reflexivity|].
  split; [vm_compute; reflexivity|]. split.
  - vm_compute. tauto.
  - vm_compute. reflexivity.
Qed.

(** C4: no timestamps and no audio track are supplied, yet once the first
    stage is done the remux runs, and once the remux has closed the audio
    mux runs. *)
Lemma stages_run_without_their_inputs :
  exists w acts,
    run1 (connect1 [])
      [ok (CmdStart None); ok (CmdFrame demo_frame); ok (WriteDone 0 false);
       ok CmdEnd; ok (RunnerDone 0); ok (ChildClose 0 0)] = Some (w, acts) /\
    spawned acts = [Encode; VfrRemux; AudioMux] /\
    (u16 "out/ts-untitled-7.txt" ∉ disk w) /\
    (u16 "out/untitled-7.mp3" ∉ disk w).
Proof.
  eexists _, _. split; [vm_compute; reflexivity|].
  split; [vm_compute; reflexivity|].
  split; vm_compute; intros H; discriminate H.
Qed.

(** The theorem of C4 at the two completions of that run. *)
Lemma later_stages_unconditional_witness :
  (exists w',
     step1 (after1 [ok (CmdStart None); ok CmdEnd]) (ok (RunnerDone 0)) =
       Some (w', [ASpawn VfrRemux "mp4fpsmod"
                    [u16 "-o"; u16 "out/vfr-untitled-7.mp4";
                     u16 "-t"; u16 "out/ts-untitled-7.txt";
                     u16 "out/untitled-7.mp4"]])) /\
  (exists w',
     step1 (after1 [ok (CmdStart None); ok CmdEnd; ok (RunnerDone 0)])
       (ok (ChildClose 0 0)) =
       Some (w', [ASpawn AudioMux "ffmpeg"
                    [u16 "-y"; u16 "-i"; u16 "out/vfr-untitled-7.mp4";
                     u16 "-i"; u16 "out/untitled-7.mp3";
                     u16 "-map"; u16 "0:v"; u16 "-map"; u16 "1:a"; u16 "-shortest";
                     u16 "out/cfr-untitled-7.mp4"]])).
Proof.
  split.
  - destruct (proj1 (later_stages_unconditional demo_id one_dir no_upper no_filter
                       (after1 [ok (CmdStart None); ok CmdEnd]) 0%nat true)
                (u16 "out/untitled-7.mp4") eq_refl) as (w' & E & _).
    exists w'. exact E.
  - destruct (proj2 (later_stages_unconditional demo_id one_dir no_upper no_filter
                       (after1 [ok (CmdStart None); ok CmdEnd; ok (RunnerDone 0)]) 0%nat true)
                eq_refl) as (w' & E & _).
    exists w'. exact E.
Defined.

(** C7: after [start], one frame and [end], the session is Ending.  A
    further frame is accepted: no error is sent, the frame gets index 1
    and [numWriting] goes from 1 to 2. *)
Lemma frame_accepted_while_ending :
  exists w' acts,
    phase (after1 [ok (CmdStart None); ok (CmdFrame demo_frame); ok CmdEnd]) = Ending /\
    step1 (after1 [ok (CmdStart None); ok (CmdFrame demo_frame); ok CmdEnd])
      (ok (CmdFrame demo_frame)) = Some (w', acts) /\
    sent "error" acts = [] /\
    assigned acts = [1] /\
    numWriting (after1 [ok (CmdStart None); ok (CmdFrame demo_frame); ok CmdEnd]) = 1 /\
    numWriting w' = 2.
Proof.
  eexists _, _. split; [vm_compute; reflexivity|].
  split; [vm_compute; reflexivity|].
  by_eval.
Qed.

(** A frame accepted during assembly starts the pipeline a second time
    when its write completes. *)
Lemma frame_during_assembly_restarts_pipeline :
  exists w acts,
    phase (after1 [ok (CmdStart None); ok CmdEnd]) = Assembling /\
    run1 (after1 [ok (CmdStart None); ok CmdEnd])
      [ok (CmdFrame demo_frame); ok (WriteDone 0 false)] = Some (w, acts) /\
    spawned acts = [Encode] /\
    procs w = [EncodeRunner (u16 "out/untitled-7.mp4"); EncodeRunner (u16 "out/untitled-7.mp4")].
Proof.
  eexists _, _. split; [vm_compute; reflexivity|].
  split; [vm_compute; reflexivity|].
  by_eval.
Qed.

(** The theorem of C7 on the Ending session above, where the frame is
    accepted, and on a new connection when the error cannot be sent. *)
Lemma frame_guard_is_name_witness :
  (exists w' acts,
     step1 (after1 [ok (CmdStart None); ok (CmdFrame demo_frame); ok CmdEnd])
       (CmdFrame demo_frame, true) = Some (w', acts) /\
     phase (after1 [ok (CmdStart None); ok (CmdFrame demo_frame); ok CmdEnd]) = Ending /\
     sent "error" acts = [] /\
     count w' =
       count (after1 [ok (CmdStart None); ok (CmdFrame demo_frame); ok CmdEnd]) + 1 /\
     numWriting w' =
       numWriting (after1 [ok (CmdStart None); ok (CmdFrame demo_frame); ok CmdEnd]) + 1) /\
  (exists w' acts,
     step1 (connect1 []) (CmdFrame demo_frame, false) = Some (w', acts) /\
     phase (connect1 []) = Idle /\
     sent "error" acts = [PText "video not started"] /\
     assigned acts = [] /\
     connected w' = false).
Proof.
  split.
  - destruct (step1 (after1 [ok (CmdStart None); ok (CmdFrame demo_frame); ok CmdEnd])
                (CmdFrame demo_frame, true)) as [[w' acts]|] eqn:E.
    + exists w', acts. split; [reflexivity|].
      split; [vm_compute; reflexivity|].
      destruct (frame_guard_is_name demo_id one_dir no_upper no_filter _ _ _ _ _ E)
        as [_ H].
      destruct H as [S H]; [vm_compute; discriminate|].
      rewrite bool_decide_eq_true_2 in H by (vm_compute; reflexivity).
      destruct H as (C & N & _).
      exact (conj S (conj C N)).
    + vm_compute in E. discriminate E.
  - destruct (step1 (connect1 []) (CmdFrame demo_frame, false)) as [[w' acts]|] eqn:E.
    + exists w', acts. split; [reflexivity|].
      split; [vm_compute; reflexivity|].
      destruct (frame_guard_is_name demo_id one_dir no_upper no_filter _ _ _ _ _ E)
        as [H _].
      destruct H as (S & A & _ & _ & _ & _ & _ & _ & _ & _ & F);
        [vm_compute; reflexivity|].
      destruct (F eq_refl) as [C _].
      exact (conj S (conj A C)).
    + vm_compute in E. discriminate E.
Defined.

(** The session that is Capturing with one frame written. *)
Notation captured1 :=
  (after1 [ok (CmdStart None); ok (CmdFrame demo_frame); ok (WriteDone 0 false)]).

(** The theorem of C8 on that session, with the error delivered. *)
Lemma start_rejected_in_progress_witness :
  exists w' acts,
    step1 captured1 (CmdStart None, true) = Some (w', acts) /\
    phase captured1 = Capturing /\
    sent "error" acts = [PText "video already in progress"] /\
    w' = captured1.
Proof.
  destruct (step1 captured1 (CmdStart None, true)) as [[w' acts]|] eqn:E.
  - assert (P : in_progress captured1) by (left; vm_compute; reflexivity).
    destruct (start_rejected_in_progress demo_id one_dir no_upper no_filter
                _ _ _ _ _ P E) as (S & _ & _ & _ & _ & _ & _ & _ & _ & _ & T & _).
    exists w', acts. split; [reflexivity|].
    split; [vm_compute; reflexivity|].
    split; [exact S|]. exact (proj1 (T eq_refl)).
  - vm_compute in E. discriminate E.
Defined.

(** C8: the session is Capturing with one frame in its list, and the
    rejection of a second [start] cannot be sent.  [send] disconnects
    the encoder; the frame list is emptied and the frame file deleted. *)
Lemma rejected_start_unsent_disconnects :
  exists w' acts,
    phase captured1 = Capturing /\
    frames captured1 = [u16 "out/untitled-7-0.png"] /\
    step1 captured1 (unsent (CmdStart None)) = Some (w', acts) /\
    sent "error" acts = [PText "video already in progress"] /\
    connected w' = false /\ frames w' = [] /\ disk w' = ∅.
Proof.
  eexists _, _. split; [vm_compute; reflexivity|].
  split; [vm_compute; reflexivity|].
  split; [vm_compute; reflexivity|].
  by_eval.
Qed.

(** C9: frames are kept after assembly.  A first capture with one frame
    fails in its first stage; the frame file stays on disk.  The client
    starts again under the same title, which empties the frame list, and
    ends at once; the runner encodes the file that is still there and
    reports frame 1.  The progress sent is 1/0, positive infinity, which
    is not a number between 0 and 1. *)
Lemma progress_of_empty_session :
  exists w acts,
    run3 (connect3 [])
      [ok (CmdStart None); ok (CmdFrame demo_frame); ok (WriteDone 0 false);
       ok CmdEnd; ok (RunnerError 0 (u16 "boom"));
       ok (CmdStart None); ok CmdEnd; ok (RunnerFrame 0 1)] = Some (w, acts) /\
    frames w = [] /\
    u16 "out/untitled-7-0.png" ∈ disk w /\
    sent "progress" acts = [PProgress PosInf] /\
    ~ in_unit_interval PosInf.
Proof.
  eexists _, _. split; [vm_compute; reflexivity|].
  split; [vm_compute; reflexivity|].
  split; [vm_compute; reflexivity|].
  split; [vm_compute; reflexivity|].
  intros [].
Qed.

(** C10's scenario: a session disconnects with two frame writes pending,
    which then complete, the later one first.  Both files are deleted,
    the frame list stays empty, no acknowledgment is sent and the
    registry lost the encoder once. *)
Lemma disconnect_discards_pending_witness :
  exists w1 a1 w2 a2,
    writes (after1 [ok (CmdStart None); ok (CmdFrame demo_frame); ok (CmdFrame demo_frame)])
      = [FrameWrite 0 (u16 "out/untitled-7-0.png"); FrameWrite 1 (u16 "out/untitled-7-1.png")] /\
    step1 (after1 [ok (CmdStart None); ok (CmdFrame demo_frame); ok (CmdFrame demo_frame)])
      (ok Disconnected) = Some (w1, a1) /\
    run1 w1 [ok (WriteDone 1 false); ok (WriteDone 0 false)] = Some (w2, a2) /\
    a2 = [ADelete (u16 "out/untitled-7-1.png"); ADelete (u16 "out/untitled-7-0.png")] /\
    disk w2 = ∅ /\
    frames w2 = [] /\
    removals demo_id (a1 ++ a2) = 1%nat /\
    (demo_id ∉ encoders w2) /\
    sent "frame" (a1 ++ a2) = [].
Proof.
  eexists _, _, _, _. split; [vm_compute; reflexivity|].
  match goal with
  | |- ?s = Some (?w1, ?a1) /\ _ =>
      assert (E1 : s = Some (w1, a1)) by (vm_compute; reflexivity)
  end.
  split; [exact E1|].
  match goal with
  | |- ?s = Some (?w2, ?a2) /\ _ =>
      assert (E2 : s = Some (w2, a2)) by (vm_compute; reflexivity)
  end.
  split; [exact E2|].
  split; [vm_compute; reflexivity|].
  split; [vm_compute; reflexivity|].
  split; [vm_compute; reflexivity|].
  assert (Hin : demo_id ∈ encoders
            (after1 [ok (CmdStart None); ok (CmdFrame demo_frame); ok (CmdFrame demo_frame)]))
    by (vm_compute; constructor).
  assert (Hnd : NoDup (encoders
            (after1 [ok (CmdStart None); ok (CmdFrame demo_frame); ok (CmdFrame demo_frame)])))
    by (vm_compute; repeat constructor; intros H; inversion H).
  destruct (disconnect_discards_pending demo_id one_dir no_upper no_filter
              _ _ _ _ _ _ _ Hin Hnd E1 E2) as (R & N & _ & S & _).
  split; [exact R|]. split; [exact N|exact S].
Defined.

(** A second [disconnect] of the same encoder (the socket reports an
    error after it has disconnected) finds the encoder gone, splices at
    -1 and removes the last entry of the registry, another session's. *)
Lemma second_disconnect_removes_another :
  exists w acts,
    encoders (connect1 [u16 "3"]) = [u16 "3"; demo_id] /\
    run1 (connect1 [u16 "3"]) [ok Disconnected; ok SocketError] = Some (w, acts) /\
    encoders w = [] /\
    removals demo_id acts = 1%nat /\
    removals (u16 "3") acts = 1%nat.
Proof.
  eexists _, _. split; [vm_compute; reflexivity|].
  split; [vm_compute; reflexivity|].
  by_eval.
Qed.

(** * The further properties on concrete inputs *)

(** X2 on a title of 30 characters: the id does not show in the name. *)
Lemma safeName_ignores_tail_witness :
  safeName (u16 "a-title-of-thirty-characters-x" ++ u16 "-7") =
  safeName (u16 "a-title-of-thirty-characters-x").
Proof.
  apply safeName_ignores_tail. vm_compute. lia.
Defined.

(** X3 on a new connection. *)
Lemma start_arguments_rejected_witness :
  exists w',
    step1 (connect1 [])
      (ok (CmdStart (Some {| d_name := None; d_framerate := Some 60;
                             d_extension := None; d_codec := None;
                             d_ffmpegArguments := Some [u16 "-crf"; u16 "18"] |}))) =
      Some (w', [ASend "error"
                   (PMsg "ffmpegArguments not allowed without --allow-arbitrary-ffmpeg-argumments command line option")
                   true]) /\
    name w' = None /\ framerate w' = 60.
Proof.
  assert (Hn : name (connect1 []) = None) by (vm_compute; reflexivity).
  assert (Ha : allowArbitraryFfmpegArguments one_dir = false) by reflexivity.
  destruct (start_arguments_rejected demo_id one_dir no_upper no_filter (connect1 [])
              {| d_name := None; d_framerate := Some 60;
                 d_extension := None; d_codec := None;
                 d_ffmpegArguments := Some [u16 "-crf"; u16 "18"] |}
              [u16 "-crf"; u16 "18"] Hn Ha eq_refl)
    as (w' & E & N & _ & _ & _ & _ & _ & _ & _ & _ & F & _).
  exists w'. split; [exact E|]. split; [exact N|exact F].
Defined.

(** The session whose four stages have run and whose final video is
    with [server.addFile]. *)
Notation finished1 :=
  (after1 [ok (CmdStart None); ok (CmdFrame demo_frame); ok (WriteDone 0 false);
           ok CmdEnd; ok (RunnerDone 0); ok (ChildClose 0 0); ok (ChildClose 0 0);
           ok (RunnerDone 0)]).

(** X4 on that session. *)
Lemma pipeline_success_keeps_name_witness :
  exists w' acts,
    step1 finished1 (ok (AddFileDone 0 (Some (u16 "info")))) = Some (w', acts) /\
    sent "end" acts = [PFileInfo (u16 "info")] /\
    name w' = Some (u16 "untitled-7") /\
    step1 w' (ok (CmdStart None)) =
      Some (w', [ASend "error" (PText "video already in progress") true]).
Proof.
  assert (Hp : procs finished1 !! 0%nat = Some (AddFilePromise (u16 "out/final-untitled-7.mp4")))
    by (vm_compute; reflexivity).
  assert (Hn : name finished1 = Some (u16 "untitled-7")) by (vm_compute; reflexivity).
  destruct (pipeline_success_keeps_name demo_id one_dir no_upper no_filter
              finished1 0%nat _ _ (u16 "info") Hp Hn)
    as (w' & acts & E & S & _ & _ & N & _ & R).
  exists w', acts. split; [exact E|]. split; [exact S|]. split; [exact N|apply R].
Defined.

(** The session that is assembling one frame. *)
Notation assembling1 :=
  (after1 [ok (CmdStart None); ok (CmdFrame demo_frame); ok (WriteDone 0 false);
           ok CmdEnd]).

(** X5 when the runner reports the only frame. *)
Lemma progress_normalised_witness :
  exists v,
    step1 assembling1 (ok (RunnerFrame 0 1)) =
      Some (assembling1, [ASend "progress" (PProgress v) true]) /\
    in_unit_interval v.
Proof.
  apply (progress_normalised demo_id one_dir no_upper no_filter assembling1 0%nat 1).
  - left. exists (u16 "out/untitled-7.mp4"). vm_compute. reflexivity.
  - vm_compute. split; discriminate.
  - vm_compute. discriminate.
Defined.

(** The session with one frame in flight. *)
Notation writing1 := (after1 [ok (CmdStart None); ok (CmdFrame demo_frame)]).

(** X6 on that write. *)
Lemma failed_write_is_lost_witness :
  exists w' acts,
    step1 writing1 (WriteDone 0 true, true) = Some (w', acts) /\
    numWriting w' = numWriting writing1 - 1 /\
    numErrors w' = numErrors writing1 + 1 /\
    frames w' = frames writing1 /\
    sent "frame" acts = [].
Proof.
  assert (Hw : writes writing1 !! 0%nat = Some (FrameWrite 0 (u16 "out/untitled-7-0.png")))
    by (vm_compute; reflexivity).
  destruct (step1 writing1 (WriteDone 0 true, true)) as [[w' acts]|] eqn:E.
  - destruct (failed_write_is_lost demo_id one_dir no_upper no_filter _ _ _ _ _ _ _ Hw E)
      as (A & B & C & _ & _ & _ & D & _).
    exists w', acts. split; [reflexivity|]. repeat split; assumption.
  - vm_compute in E. discriminate E.
Defined.

(** X7 on that write. *)
Lemma written_frame_is_registered_witness :
  exists w' acts,
    step1 writing1 (ok (WriteDone 0 false)) = Some (w', acts) /\
    frames w' = frames writing1 ++ [u16 "out/untitled-7-0.png"] /\
    sent "frame" acts = [PFrameNum 0] /\
    u16 "out/untitled-7-0.png" ∈ disk w'.
Proof.
  assert (Hw : writes writing1 !! 0%nat = Some (FrameWrite 0 (u16 "out/untitled-7-0.png")))
    by (vm_compute; reflexivity).
  assert (Hc : connected writing1 = true) by (vm_compute; reflexivity).
  destruct (step1 writing1 (ok (WriteDone 0 false))) as [[w' acts]|] eqn:E.
  - destruct (written_frame_is_registered demo_id one_dir no_upper no_filter
                _ _ _ _ _ _ Hw Hc E) as (A & B & C & _).
    exists w', acts. split; [reflexivity|]. repeat split; assumption.
  - vm_compute in E. discriminate E.
Defined.

(** X8 after two frames, one of them written. *)
Lemma counter_counts_pending_writes_witness :
  exists w acts,
    run1 (connect1 [])
      [ok (CmdStart None); ok (CmdFrame demo_frame); ok (CmdFrame demo_frame);
       ok (CmdTimestamps (u16 "0 33")); ok (WriteDone 0 false)] = Some (w, acts) /\
    numWriting w = pending_frames w /\
    0 <= numWriting w /\
    (numWriting w = 0 <-> List.filter is_frame_write (writes w) = []).
Proof.
  destruct (run1 (connect1 [])
      [ok (CmdStart None); ok (CmdFrame demo_frame); ok (CmdFrame demo_frame);
       ok (CmdTimestamps (u16 "0 33")); ok (WriteDone 0 false)]) as [[w acts]|] eqn:E.
  - exists w, acts. split; [reflexivity|].
    exact (counter_counts_pending_writes demo_id one_dir no_upper no_filter _ _ _ _ E).
  - vm_compute in E. discriminate E.
Defined.

(** X11 on an encoder that is not in a registry of two. *)
Lemma disconnect_unregistered_removes_last_witness :
  exists w' acts,
    step1 (fresh ∅ [u16 "3"; u16 "4"]) (Disconnected, true) = Some (w', acts) /\
    encoders w' = [u16 "3"] /\
    In (ASplice (-1) [u16 "4"]) acts.
Proof.
  assert (Hid : demo_id ∉ encoders (fresh ∅ [u16 "3"; u16 "4"])).
  { apply (proj1 (bool_decide_eq_false _)). vm_compute. reflexivity. }
  destruct (step1 (fresh ∅ [u16 "3"; u16 "4"]) (Disconnected, true))
    as [[w' acts]|] eqn:E.
  - destruct (disconnect_unregistered_removes_last demo_id one_dir no_upper no_filter
                _ _ _ _ Hid E)
      as (A & B & _).
    exists w', acts. split; [reflexivity|]. split; [exact A|exact B].
  - vm_compute in E. discriminate E.
Defined.

(** X12 with two other encoders registered. *)
Lemma failed_greeting_corrupts_registry_witness :
  connected (fst (exec (construct demo_id one_dir false) (fresh ∅ [u16 "3"; u16 "4"])))
    = false /\
  encoders (fst (exec (construct demo_id one_dir false) (fresh ∅ [u16 "3"; u16 "4"])))
    = take (length [u16 "3"; u16 "4"] - 1) [u16 "3"; u16 "4"] ++ [demo_id].
Proof.
  apply failed_greeting_corrupts_registry.
  apply (proj1 (bool_decide_eq_false _)). vm_compute. reflexivity.
Defined.

(** X13 on a session of three frames. *)
Lemma frame_files_distinct_witness :
  exists w' acts,
    run1 (after1 [ok (CmdStart None)])
      [ok (CmdFrame demo_frame); ok (CmdFrame demo_frame); ok (WriteDone 0 true);
       ok (CmdFrame demo_frame)] = Some (w', acts) /\
    frame_files acts =
      [u16 "out/untitled-7-0.png"; u16 "out/untitled-7-1.png"; u16 "out/untitled-7-2.png"] /\
    NoDup (frame_files acts).
Proof.
  destruct (run1 (after1 [ok (CmdStart None)])
      [ok (CmdFrame demo_frame); ok (CmdFrame demo_frame); ok (WriteDone 0 true);
       ok (CmdFrame demo_frame)]) as [[w' acts]|] eqn:E.
  - assert (S : one_session demo_id one_dir no_upper no_filter
                  (after1 [ok (CmdStart None)])
                  [ok (CmdFrame demo_frame); ok (CmdFrame demo_frame);
                   ok (WriteDone 0 true); ok (CmdFrame demo_frame)] = true)
      by (vm_compute; reflexivity).
    destruct (frame_files_distinct demo_id one_dir no_upper no_filter _ _ _ _ E S)
      as [N _].
    exists w', acts. split; [reflexivity|]. split; [|exact N].
    vm_compute in E. injection E as <- <-. vm_compute. reflexivity.
  - vm_compute in E. discriminate E.
Defined.

(** X14 on a new connection. *)
Lemma start_accepted_silently_witness :
  exists w',
    step1 (connect1 [])
      (ok (CmdStart (Some {| d_name := Some (u16 "my clip"); d_framerate := None;
                             d_extension := None; d_codec := None;
                             d_ffmpegArguments := None |}))) = Some (w', []) /\
    phase w' = Capturing /\
    name w' = Some (safeName (u16 "my clip" ++ u16 "-" ++ demo_id)).
Proof.
  assert (Hn : name (connect1 []) = None) by (vm_compute; reflexivity).
  destruct (start_accepted_silently demo_id one_dir no_upper no_filter (connect1 [])
              {| d_name := Some (u16 "my clip"); d_framerate := None;
                 d_extension := None; d_codec := None;
                 d_ffmpegArguments := None |} Hn (or_intror eq_refl))
    as (w' & E & P & N & _).
  exists w'. split; [exact E|]. split; [exact P|exact N].
Defined.

(** X15 on a new connection. *)
Lemma early_timestamps_miss_session_witness :
  exists w1 acts1,
    step1 (connect1 []) (ok (CmdStart None)) = Some (w1, acts1) /\
    name w1 = Some (u16 "untitled-7") /\
    ts_path one_dir None = path_join (frameDir one_dir) (u16 "ts-undefined.txt") /\
    ts_path one_dir (Some (u16 "untitled-7")) <> ts_path one_dir None.
Proof.
  destruct (step1 (connect1 []) (ok (CmdStart None))) as [[w1 acts1]|] eqn:E.
  - assert (N : name w1 = Some (u16 "untitled-7"))
      by (vm_compute in E; injection E as <- <-; vm_compute; reflexivity).
    assert (Hn : name (connect1 []) = None) by (vm_compute; reflexivity).
    destruct (early_timestamps_miss_session demo_id one_dir no_upper no_filter
                (connect1 []) (u16 "0 33") None w1 acts1 (u16 "untitled-7") Hn E N)
      as (_ & P & D).
    exists w1, acts1. split; [reflexivity|]. split; [exact N|]. split; [exact P|exact D].
  - vm_compute in E. discriminate E.
Defined.

(** X16 when the first stage of a session fails. *)
Lemma runner_error_aborts_witness :
  exists w' acts,
    step1 assembling1 (ok (RunnerError 0 (u16 "boom"))) = Some (w', acts) /\
    spawned acts = [] /\
    sent "error" acts = [PResult (u16 "boom")] /\
    name w' = None.
Proof.
  destruct (step1 assembling1 (ok (RunnerError 0 (u16 "boom")))) as [[w' acts]|] eqn:E.
  - destruct (runner_error_aborts demo_id one_dir no_upper no_filter _ _ _ _ _ E)
      as (A & B & C & _).
    exists w', acts. split; [reflexivity|]. repeat split; assumption.
  - vm_compute in E. discriminate E.
Defined.
